(** * Astra DB delete-records component

    A shallow embedding of
    [src/backend/base/langflow/components/astra_assistants/astra_delete_record.py]
    (class [AstraDBDeleteComponent]) and the properties of its operations.

    The component is straight-line Python over two SDKs.  Its code mutates
    dictionaries in place, assigns to fields of [self], calls out to the
    database SDK and turns every exception into a result record.  The
    embedding keeps those four aspects explicit:

    - dictionaries that the code mutates live in a store indexed by object
      identity, so that two names of one dictionary see one another's
      writes;
    - a method is a function from the state (the component's fields and the
      store) to an outcome: a value or a raised exception, the state it
      leaves, and the calls it made to the outside, in order;
    - everything outside the file (the SDK, the inherited search routine,
      the record class) is gathered in one record, [World]. *)

From Stdlib Require Import ZArith.
From stdpp Require Import gmap strings list fin_maps.

#[local] Set Warnings "-register-all".
#[local] Open Scope string_scope.

(** ** Python values *)

(** The values that travel through the component: filters, metadata entries
    and the database's responses are JSON-like. *)
Inductive pyval : Type :=
  | VNone
  | VBool (b : bool)
  | VInt (z : Z)
  | VStr (s : string)
  | VList (l : list pyval)
  | VDict (d : gmap string pyval).

Abbreviation dict := (gmap string pyval).

(** [bool(v)]: [None], [False], zero and empty containers are falsy. *)
Definition py_truthy (v : pyval) : bool :=
  match v with
  | VNone => false
  | VBool b => b
  | VInt z => negb (Z.eqb z 0)
  | VStr s => negb (Nat.eqb (String.length s) 0)
  | VList l => negb (Nat.eqb (length l) 0)
  | VDict d => negb (Nat.eqb (size d) 0)
  end.

(** An object of an SDK class (a client, a collection).  The code only
    passes such objects on and tests them with [not]; [oid] is the object's
    identity and [truthy] what [bool()] answers on it. *)
Record Object := mkObject { oid : nat; truthy : bool }.

(** A field or variable holding either [None] or an SDK object. *)
Definition obj_truthy (o : option Object) : bool :=
  match o with
  | None => false
  | Some h => truthy h
  end.

(** ** Exceptions *)

(** The exceptions that can travel through the component.  [Exception_] is
    the one the component raises itself; [KeyError], [TypeError] and
    [AttributeError] come from subscripting and attribute access; [SdkError]
    is any other exception of class [Exception] or below raised by code
    outside the file, with its class name and its [str()]; [Interrupt] is an
    exception that derives from [BaseException] but not from [Exception]
    ([KeyboardInterrupt], [SystemExit], [GeneratorExit]), with its class
    name and its [str()]. *)
Inductive exn : Type :=
  | Exception_ (msg : string)
  | KeyError (key : string)
  | TypeError (msg : string)
  | AttributeError (msg : string)
  | SdkError (cls : string) (msg : string)
  | Interrupt (cls : string) (msg : string).

(** [isinstance(e, Exception)]: what [except Exception] catches. *)
Definition is_Exception (e : exn) : bool :=
  match e with
  | Interrupt _ _ => false
  | _ => true
  end.

(** The characters that [repr] treats specially. *)
Definition squote : Ascii.ascii := Ascii.ascii_of_nat 39.
Definition dquote : Ascii.ascii := Ascii.ascii_of_nat 34.
Definition backslash : Ascii.ascii := Ascii.ascii_of_nat 92.

Fixpoint has_char (c : Ascii.ascii) (s : string) : bool :=
  match s with
  | EmptyString => false
  | String c' rest => Ascii.eqb c c' || has_char c rest
  end.

(** A lower-case hexadecimal digit. *)
Definition hex_digit (n : nat) : Ascii.ascii :=
  Ascii.ascii_of_nat (if Nat.ltb n 10 then 48 + n else 87 + n).

(** [str.isprintable] on a code point below 256: the controls, DEL, the C1
    controls, the no-break space and the soft hyphen are not printable. *)
Definition py_printable (n : nat) : bool :=
  (Nat.leb 32 n && Nat.ltb n 127) || (Nat.leb 161 n && negb (Nat.eqb n 173)).

(** One character inside [repr]: the backslash and the quote in use are
    escaped, tab, newline and carriage return have their letters, any other
    character that is not printable is written in hexadecimal. *)
Definition py_escape (quote c : Ascii.ascii) : string :=
  let n := Ascii.nat_of_ascii c in
  if Ascii.eqb c quote || Ascii.eqb c backslash then String backslash (String c EmptyString)
  else if Nat.eqb n 9 then String backslash "t"
  else if Nat.eqb n 10 then String backslash "n"
  else if Nat.eqb n 13 then String backslash "r"
  else if py_printable n then String c EmptyString
  else String backslash
         (String (Ascii.ascii_of_nat 120)
            (String (hex_digit (n / 16)) (String (hex_digit (n mod 16)) EmptyString))).

Fixpoint py_escape_all (quote : Ascii.ascii) (s : string) : string :=
  match s with
  | EmptyString => EmptyString
  | String c rest => py_escape quote c ++ py_escape_all quote rest
  end.

(** [repr] of a [str], a string standing for the sequence of its code
    points, all below 256.  The quote is the single one unless the string
    has a single quote and no double quote. *)
Definition py_repr_str (s : string) : string :=
  let quote := if has_char squote s && negb (has_char dquote s) then dquote else squote in
  String quote (py_escape_all quote s ++ String quote EmptyString).

(** [str(e)].  A [KeyError] prints the [repr] of its key. *)
Definition exn_str (e : exn) : string :=
  match e with
  | Exception_ msg => msg
  | KeyError key => py_repr_str key
  | TypeError msg => msg
  | AttributeError msg => msg
  | SdkError _ msg => msg
  | Interrupt _ msg => msg
  end.

Inductive result (A : Type) : Type :=
  | Ok (a : A)
  | Raise (e : exn).
Arguments Ok {A} a.
Arguments Raise {A} e.

(** [v[key]] for a string key (CPython 3.11 and later wording of the
    [TypeError]s). *)
Definition py_getitem (v : pyval) (key : string) : result pyval :=
  match v with
  | VDict d =>
      match d !! key with
      | Some x => Ok x
      | None => Raise (KeyError key)
      end
  | VNone => Raise (TypeError "'NoneType' object is not subscriptable")
  | VBool _ => Raise (TypeError "'bool' object is not subscriptable")
  | VInt _ => Raise (TypeError "'int' object is not subscriptable")
  | VStr _ => Raise (TypeError "string indices must be integers, not 'str'")
  | VList _ => Raise (TypeError "list indices must be integers or slices, not str")
  end.

(** ** Documents, records and the store *)

Definition loc := nat.

(** The dictionaries the code writes to, by object identity. *)
Abbreviation store := (gmap loc dict).

(** The contents of the dictionary at [l]. *)
Definition read (σ : store) (l : loc) : dict := default ∅ (σ !! l).

(** [langchain_core.documents.Document]: [metadata] is a reference to a
    dictionary, [doc_id] is the optional [id] attribute. *)
Record Document := mkDocument {
  page_content : string;
  metadata : loc;
  doc_id : option string;
}.

Definition py_of_id (i : option string) : pyval :=
  match i with
  | Some s => VStr s
  | None => VNone
  end.

(** Modelled from the spec: the class [Data] of [langflow.schema.data] is
    not among the sources.  The spec calls it "a generic key-value container
    holding a designated text field plus arbitrary metadata": a record is a
    reference to its mapping and the name of its text key. *)
Record Data := mkData { data : loc; text_key : string }.

(** A piece of an f-string handed to [self.log]: literal text or a formatted
    value. *)
Inductive fpart : Type :=
  | Lit (s : string)
  | Fmt (v : pyval).

(** What the component does to the outside, as the outside sees it. *)
Inductive Event : Type :=
  | CallAstraDB (token api_endpoint : string)
  | CallCollection (client : Object) (name : string)
  | CallSearch
  | CallDeleteMany (collection : Object) (filter : pyval)
  | CallLog (msg : list fpart).

(** The fields of [self] that the file reads or assigns. *)
Record Component := mkComponent {
  token : string;
  api_endpoint : string;
  collection_name : string;
  advanced_search_filter : pyval;
  client : option Object;
  status : option (list Data);
}.

Record State := mkState { self : Component; heap : store }.

Definition set_client (c : option Object) (s : State) : State :=
  mkState
    (mkComponent (token (self s)) (api_endpoint (self s)) (collection_name (self s))
       (advanced_search_filter (self s)) c (status (self s)))
    (heap s).

Definition set_status (d : list Data) (s : State) : State :=
  mkState
    (mkComponent (token (self s)) (api_endpoint (self s)) (collection_name (self s))
       (advanced_search_filter (self s)) (client (self s)) (Some d))
    (heap s).

Definition set_heap (σ : store) (s : State) : State := mkState (self s) σ.

(** ** The outside *)

(** What the file imports or inherits.  Each call is answered with a value
    or an exception. *)
Record World := mkWorld {
  (** the constructor [AstraDB(token=..., api_endpoint=...)] *)
  AstraDB : string -> string -> result Object;
  (** [client.collection(name)]; [None] when the SDK hands back nothing *)
  collection : Object -> string -> result (option Object);
  (** the inherited [self._search_documents(vector_store)] *)
  _search_documents : result (list Document);
  (** [collection.delete_many(filter)], the response of the store *)
  delete_many : Object -> pyval -> result pyval;
  (** whether the constructor of [Data] stores a copy of the mapping it is
      given ([true]) or the mapping itself ([false]) *)
  data_copies : bool;
}.

(** ** Methods as state transformers *)

Record Out (A : Type) := mkOut { res : result A; st : State; evs : list Event }.
Arguments mkOut {A} res st evs.
Arguments res {A} o.
Arguments st {A} o.
Arguments evs {A} o.

Definition M (A : Type) : Type := State -> Out A.

Definition ret {A} (a : A) : M A := fun s => mkOut (Ok a) s [].

Definition raise {A} (e : exn) : M A := fun s => mkOut (Raise e) s [].

Definition bind {A B} (m : M A) (k : A -> M B) : M B :=
  fun s =>
    let o := m s in
    match res o with
    | Ok a => let o' := k a (st o) in mkOut (res o') (st o') (evs o ++ evs o')
    | Raise e => mkOut (Raise e) (st o) (evs o)
    end.

(** [try: body except Exception as e: handler(e)].  Writes made before the
    exception stay; an exception that is not of class [Exception] is not
    caught. *)
Definition try_except {A} (body : M A) (handler : exn -> M A) : M A :=
  fun s =>
    let o := body s in
    match res o with
    | Ok a => o
    | Raise e =>
        if is_Exception e
        then let o' := handler e (st o) in mkOut (res o') (st o') (evs o ++ evs o')
        else o
    end.

Notation "'let*' x ':=' m 'in' k" := (bind m (fun x => k))
  (at level 10, x name, m at level 100, k at level 200).
Notation "'do' m 'then' k" := (bind m (fun _ => k))
  (at level 10, m at level 100, k at level 200).

Definition get_self : M Component := fun s => mkOut (Ok (self s)) s [].

Definition emit (e : Event) : M unit := fun s => mkOut (Ok tt) s [e].

(** The answer of the outside to a call, recorded as an event. *)
Definition call {A} (e : Event) (r : result A) : M A := fun s => mkOut r s [e].

(** [if not c: m] *)
Definition when_not (c : bool) (m : M unit) : M unit := if c then ret tt else m.

(** A dictionary display [{...}]: a new object. *)
Definition alloc (d : dict) : M loc :=
  fun s =>
    let l := fresh (dom (heap s)) in
    mkOut (Ok l) (set_heap (<[l := d]> (heap s)) s) [].

(** [d[key] = v] on the dictionary object [l]. *)
Definition setitem (l : loc) (key : string) (v : pyval) : M unit :=
  fun s => mkOut (Ok tt) (set_heap (<[l := <[key := v]> (read (heap s) l)]> (heap s)) s) [].

(** [self.log(msg)], inherited from the engine's component class. *)
Definition log (msg : list fpart) : M unit := emit (CallLog msg).

Section Component.

Context (w : World).

(** Modelled from the spec: the constructor [Data(data=l, text_key=tk)] of
    the record class, which is not among the sources.  The spec does not say
    whether a record keeps the mapping it is given or a copy of it; both
    readings are covered, chosen by [data_copies]. *)
Definition Data_new (l : loc) (tk : string) : M Data :=
  if data_copies w then
    fun s => bind (alloc (read (heap s) l)) (fun l' => ret (mkData l' tk)) s
  else ret (mkData l tk).

(** Modelled from the spec: attribute access on a record, which the class
    [Data] (not among the sources) resolves in the record's mapping; the
    spec's "identifiers of all matched records" are the [id] entries. *)
Definition Data_getattr (r : Data) (key : string) : M pyval :=
  fun s =>
    match read (heap s) (data r) !! key with
    | Some v => mkOut (Ok v) s []
    | None =>
        mkOut (Raise (AttributeError ("'Data' object has no attribute '" ++ key ++ "'"))) s []
    end.

(** [initialize_client], lines 36-38. *)
Definition initialize_client (token api_endpoint : string) : M unit :=
  let* c := call (CallAstraDB token api_endpoint) (AstraDB w token api_endpoint) in
  fun s => mkOut (Ok tt) (set_client (Some c) s) [].

(** [__create_result_dict], lines 69-82. *)
Definition __create_result_dict
    (deleted_count : Z) (success : bool) (message : string) (dataframe : pyval)
    : M (list Data) :=
  let* d := alloc (<["deleted_count" := VInt deleted_count]>
             (<["success" := VBool success]>
             (<["message" := VStr message]>
             (<["dataframe" := dataframe]> ∅)))) in
  let* r := Data_new d "message" in
  ret [r].

(** [__from_document], lines 96-100. *)
Definition __from_document (document : Document) : M Data :=
  let data := metadata document in
  do setitem data "text" (VStr (page_content document)) then
  do setitem data "id" (py_of_id (doc_id document)) then
  Data_new data "text".

(** [__docs_to_data], lines 93-94: the comprehension converts the
    documents from left to right. *)
Fixpoint __docs_to_data (documents : list Document) : M (list Data) :=
  match documents with
  | [] => ret []
  | document :: rest =>
      let* r := __from_document document in
      let* rs := __docs_to_data rest in
      ret (r :: rs)
  end.

(** [search_documents], lines 84-91. *)
Definition search_documents : M (list Data) :=
  let* docs := call CallSearch (_search_documents w) in
  let* data := __docs_to_data docs in
  do log [Lit "Converted documents to data: "; Fmt (VInt (Z.of_nat (length data)))] then
  do (fun s => mkOut (Ok tt) (set_status data s) []) then
  ret data.

(** [[doc.id for doc in documents]], line 105. *)
Fixpoint collect_ids (documents : list Data) : M (list pyval) :=
  match documents with
  | [] => ret []
  | doc :: rest =>
      let* i := Data_getattr doc "id" in
      let* ids := collect_ids rest in
      ret (i :: ids)
  end.

(** The identifier-membership filter [{"_id": {"$in": ids}}]. *)
Definition id_filter (ids : list pyval) : pyval :=
  VDict {[ "_id" := VDict {[ "$in" := VList ids ]} ]}.

(** [__build_filter], lines 102-107. *)
Definition __build_filter (documents : list Data) : M pyval :=
  let* me := get_self in
  if py_truthy (advanced_search_filter me) then ret (advanced_search_filter me)
  else
    let* ids := collect_ids documents in
    ret (id_filter ids).

(** [self.client.collection(name)], line 53. *)
Definition client_collection (name : string) : M (option Object) :=
  let* me := get_self in
  match client me with
  | Some c => call (CallCollection c name) (collection w c name)
  | None => raise (AttributeError "'NoneType' object has no attribute 'collection'")
  end.

(** [collection.delete_many(filter)], line 59. *)
Definition collection_delete_many (coll : option Object) (filter : pyval) : M pyval :=
  match coll with
  | Some c => call (CallDeleteMany c filter) (delete_many w c filter)
  | None => raise (AttributeError "'NoneType' object has no attribute 'delete_many'")
  end.

(** The body of the [try], lines 47-63. *)
Definition delete_records_body : M (list Data) :=
  let* me := get_self in
  do when_not (obj_truthy (client me))
       (initialize_client (token me) (api_endpoint me)) then
  let* me := get_self in
  do when_not (obj_truthy (client me))
       (raise (Exception_ "Failed to initialize AstraDB client")) then
  let* coll := client_collection (collection_name me) in
  do when_not (obj_truthy coll)
       (raise (Exception_ ("Collection " ++ collection_name me ++ " not found"))) then
  let* documents := search_documents in
  let* filter := __build_filter documents in
  let* result := collection_delete_many coll filter in
  let* stat := (fun s => mkOut (py_getitem result "status") s []) in
  let* count := (fun s => mkOut (py_getitem stat "deletedCount") s []) in
  do log [Lit "Deleted "; Fmt count; Lit " records"] then
  ret (firstn 5 documents).

(** [delete_records], lines 40-67. *)
Definition delete_records : M (list Data) :=
  try_except delete_records_body
    (fun e =>
       let error_message := "Failed to delete records: " ++ exn_str e in
       __create_result_dict 0 false error_message VNone).

End Component.

(** * Notions used in the statements and proofs *)

(** The mapping that [__from_document] leaves behind for a document whose
    metadata held [m]. *)
Definition converted (document : Document) (m : dict) : dict :=
  <["id" := py_of_id (doc_id document)]> (<["text" := VStr (page_content document)]> m).

(** The identifier and the text a record carries for its document. *)
Definition carries (σ : store) (document : Document) (r : Data) : Prop :=
  read σ (data r) !! "id" = Some (py_of_id (doc_id document))
  ∧ read σ (data r) !! "text" = Some (VStr (page_content document)).

(** Lines 47-55: get hold of a client and of the collection. *)
Definition acquire (w : World) : M (option Object) :=
  let* me := get_self in
  do when_not (obj_truthy (client me))
       (initialize_client w (token me) (api_endpoint me)) then
  let* me := get_self in
  do when_not (obj_truthy (client me))
       (raise (Exception_ "Failed to initialize AstraDB client")) then
  let* coll := client_collection w (collection_name me) in
  do when_not (obj_truthy coll)
       (raise (Exception_ ("Collection " ++ collection_name me ++ " not found"))) then
  ret coll.

(** Lines 57-63: search, build the filter, delete, log, truncate. *)
Definition perform (w : World) (coll : option Object) : M (list Data) :=
  let* documents := search_documents w in
  let* filter := __build_filter documents in
  let* result := collection_delete_many w coll filter in
  let* stat := (fun s => mkOut (py_getitem result "status") s []) in
  let* count := (fun s => mkOut (py_getitem stat "deletedCount") s []) in
  do log [Lit "Deleted "; Fmt count; Lit " records"] then
  ret (firstn 5 documents).

(** The bulk-delete calls among some events: collection and filter. *)
Definition delete_calls (l : list Event) : list (Object * pyval) :=
  omap (λ e, match e with CallDeleteMany k f => Some (k, f) | _ => None end) l.

(** The client constructions among some events: token and endpoint. *)
Definition client_calls (l : list Event) : list (string * string) :=
  omap (λ e, match e with CallAstraDB t a => Some (t, a) | _ => None end) l.

(** A computation that leaves [self.client] alone and constructs no
    client. *)
Definition keeps_client {A} (m : M A) : Prop :=
  ∀ s, client (self (st (m s))) = client (self s) ∧ client_calls (evs (m s)) = [].

(** The state once a client [c] is in place: the field is assigned only
    when it was falsy. *)
Definition with_client (c : Object) (s : State) : State :=
  if obj_truthy (client (self s)) then s else set_client (Some c) s.

(** The constructor call that goes with it. *)
Definition construction (s : State) : list Event :=
  if obj_truthy (client (self s)) then []
  else [CallAstraDB (token (self s)) (api_endpoint (self s))].

(** Steps 1 and 2 of the operation end with the truthy client [c]: it was
    there already, or the field was falsy and the constructor returned it. *)
Definition obtains_client (w : World) (s : State) (c : Object) : Prop :=
  truthy c = true
  ∧ (client (self s) = Some c
     ∨ (obj_truthy (client (self s)) = false
        ∧ AstraDB w (token (self s)) (api_endpoint (self s)) = Ok c)).

(** Rewrite with the equations at hand, computing in between. *)
Ltac crunch :=
  repeat (cbn in *;
          match goal with
          | H : ?x = _ |- context [?x] => rewrite H
          end);
  cbn in *.

Ltac run_acquire :=
  unfold acquire, bind, get_self, when_not, initialize_client, client_collection,
    call, raise, ret, set_client; cbn.

(** What follows the bulk delete, lines 61-63: reading the count out of the
    response, logging it and truncating the records. *)
Definition conclude (response : result pyval) (documents : list Data)
    : result (list Data) * list Event :=
  match response with
  | Raise e => (Raise e, [])
  | Ok result =>
      match py_getitem result "status" with
      | Raise e => (Raise e, [])
      | Ok stat =>
          match py_getitem stat "deletedCount" with
          | Raise e => (Raise e, [])
          | Ok count =>
              (Ok (firstn 5 documents), [CallLog [Lit "Deleted "; Fmt count; Lit " records"]])
          end
      end
  end.

(** A computation that only reads: it leaves the state as it is and calls
    nothing. *)
Definition reads_only {A} (m : M A) : Prop :=
  ∀ s, st (m s) = s ∧ evs (m s) = [].

(** The state in which the filter is built and the delete issued: the
    client in place, the documents converted, the records cached in
    [self.status]. *)
Definition searched (w : World) (docs : list Document) (c : Object) (s : State) : State :=
  match res (__docs_to_data w docs (with_client c s)) with
  | Ok rs => set_status rs (st (__docs_to_data w docs (with_client c s)))
  | Raise _ => st (__docs_to_data w docs (with_client c s))
  end.

(** The mapping of the record built by the handler, line 67. *)
Definition failure_dict (message : string) : dict :=
  <["deleted_count" := VInt 0]>
    (<["success" := VBool false]>
       (<["message" := VStr message]>
          (<["dataframe" := VNone]> ∅))).

(** [r] is a failure record in [σ]: its text key is ["message"] and its
    mapping is the failure mapping with that message. *)
Definition failure_record (σ : store) (r : Data) (message : string) : Prop :=
  text_key r = "message" ∧ read σ (data r) = failure_dict message.

(** A component whose advanced search filter is [f]. *)
Definition set_filter (f : pyval) (s : State) : State :=
  mkState
    (mkComponent (token (self s)) (api_endpoint (self s)) (collection_name (self s))
       f (client (self s)) (status (self s)))
    (heap s).

(** The store accepted the bulk delete with filter [f] on collection [k] and
    reported a count: step 5 succeeds. *)
Definition delete_succeeds (w : World) (k : Object) (f : pyval) : Prop :=
  ∃ result stat count,
    delete_many w k f = Ok result
    ∧ py_getitem result "status" = Ok stat
    ∧ py_getitem stat "deletedCount" = Ok count.

(** ** Sample inputs *)

Definition sample_client : Object := mkObject 1 true.
Definition sample_collection : Object := mkObject 2 true.

Definition sample_response : pyval :=
  VDict {[ "status" := VDict {[ "deletedCount" := VInt 2 ]} ]}.

(** A store with two metadata mappings, the first of which already has a
    ["text"] entry. *)
Definition sample_heap : store :=
  {[ 0 := {[ "text" := VStr "stale"; "page" := VInt 3 ]}; 1 := ∅ ]}.

Definition sample_docs : list Document :=
  [ mkDocument "hello" 0 (Some "a"); mkDocument "bye" 1 None ].

(** A world in which every call answers. *)
Definition sample_world (copies : bool) (found : result (list Document)) : World :=
  mkWorld (λ _ _, Ok sample_client) (λ _ _, Ok (Some sample_collection)) found
    (λ _ _, Ok sample_response) copies.

Definition sample_state (f : pyval) (c : option Object) : State :=
  mkState (mkComponent "token" "endpoint" "books" f c None) sample_heap.

(** Seven documents with their own metadata mappings. *)
Definition seven_docs : list Document :=
  [ mkDocument "one" 0 (Some "a"); mkDocument "two" 1 (Some "b");
    mkDocument "three" 2 (Some "c"); mkDocument "four" 3 (Some "d");
    mkDocument "five" 4 (Some "e"); mkDocument "six" 5 (Some "f");
    mkDocument "seven" 6 (Some "g") ].

Definition seven_state : State :=
  mkState (mkComponent "token" "endpoint" "books" VNone None None)
    {[ 0 := ∅; 1 := ∅; 2 := ∅; 3 := ∅; 4 := ∅; 5 := ∅; 6 := ∅ ]}.

(** * Properties *)

(** ** The text of an exception *)

(** [repr] on a plain key, on a key with a single quote (Python switches to
    double quotes), and on a key with a backslash and a newline. *)
Example py_repr_str_samples :
  py_repr_str "status" = "'status'"
  ∧ py_repr_str "it's" = String dquote ("it's" ++ String dquote EmptyString)
  ∧ py_repr_str (String backslash (String (Ascii.ascii_of_nat 10) EmptyString))
    = String squote (String backslash (String backslash (String backslash "n'"))).
Proof. repeat split. Qed.

(** The keys that line 61 looks up print between single quotes. *)
Lemma exn_str_lookup_keys :
  exn_str (KeyError "status") = "'status'"
  ∧ exn_str (KeyError "deletedCount") = "'deletedCount'".
Proof. split; reflexivity. Qed.

(** ** Document-to-record conversion *)

Lemma read_insert_eq (σ : store) l d : read (<[l := d]> σ) l = d.
Proof. unfold read. by rewrite lookup_insert_eq. Qed.

Lemma read_insert_ne (σ : store) l l' d : l ≠ l' → read (<[l := d]> σ) l' = read σ l'.
Proof. intros Hne. unfold read. by rewrite lookup_insert_ne. Qed.

Lemma fresh_loc_not_in (σ : store) : σ !! fresh (dom σ) = None.
Proof. apply not_elem_of_dom, is_fresh. Qed.

(** [__from_document] in closed form, for a record class that keeps the
    mapping it is given. *)
Lemma from_document_shared w document s :
  data_copies w = false →
  __from_document w document s =
    mkOut (Ok (mkData (metadata document) "text"))
      (set_heap (<[metadata document := converted document (read (heap s) (metadata document))]>
                   (heap s)) s) [].
Proof.
  intros Hc. unfold __from_document, Data_new. rewrite Hc.
  unfold bind, setitem, ret, set_heap, converted. cbn.
  by rewrite read_insert_eq, insert_insert_eq.
Qed.

(** [__from_document] in closed form, for a record class that copies. *)
Lemma from_document_copied w document s :
  data_copies w = true →
  let σ := <[metadata document := converted document (read (heap s) (metadata document))]>
             (heap s) in
  __from_document w document s =
    mkOut (Ok (mkData (fresh (dom σ)) "text"))
      (set_heap (<[fresh (dom σ) := converted document (read (heap s) (metadata document))]> σ) s)
      [].
Proof.
  intros Hc σ. unfold __from_document, Data_new. rewrite Hc.
  unfold bind, setitem, ret, alloc, set_heap, converted. cbn.
  by rewrite !read_insert_eq, !insert_insert_eq.
Qed.

(** What one conversion does, whichever way the record class treats its
    mapping: the record and the document both end up with the converted
    mapping, mappings that existed before are not lost, and only the
    document's own one is written. *)
Lemma from_document_spec w document s :
  ∃ r,
    res (__from_document w document s) = Ok r
    ∧ evs (__from_document w document s) = []
    ∧ self (st (__from_document w document s)) = self s
    ∧ text_key r = "text"
    ∧ read (heap (st (__from_document w document s))) (data r)
      = converted document (read (heap s) (metadata document))
    ∧ read (heap (st (__from_document w document s))) (metadata document)
      = converted document (read (heap s) (metadata document))
    ∧ is_Some (heap (st (__from_document w document s)) !! data r)
    ∧ (∀ l, is_Some (heap s !! l) → is_Some (heap (st (__from_document w document s)) !! l))
    ∧ (∀ l, l ≠ metadata document → is_Some (heap s !! l) →
         heap (st (__from_document w document s)) !! l = heap s !! l)
    ∧ (if data_copies w
       then heap s !! data r = None ∧ data r ≠ metadata document
       else data r = metadata document).
Proof.
  destruct (data_copies w) eqn:Hc.
  - pose proof (from_document_copied w document s Hc) as E. cbn zeta in E. rewrite E.
    set (d := converted document (read (heap s) (metadata document))).
    set (σ := <[metadata document := d]> (heap s)).
    assert (Hf : σ !! fresh (dom σ) = None) by apply fresh_loc_not_in.
    assert (Hne : fresh (dom σ) ≠ metadata document).
    { intros Heq. rewrite Heq in Hf. subst σ. by rewrite lookup_insert_eq in Hf. }
    eexists. cbn. repeat split; try reflexivity.
    + apply read_insert_eq.
    + rewrite read_insert_ne by done. apply read_insert_eq.
    + by rewrite lookup_insert_eq.
    + intros l [x Hl]. destruct (decide (fresh (dom σ) = l)) as [<-|Hn].
      * rewrite lookup_insert_eq. eauto.
      * rewrite lookup_insert_ne by done. subst σ.
        destruct (decide (metadata document = l)) as [<-|Hn'].
        -- rewrite lookup_insert_eq. eauto.
        -- rewrite lookup_insert_ne by done. eauto.
    + intros l Hl [x Hx]. rewrite lookup_insert_ne.
      * subst σ. by rewrite lookup_insert_ne.
      * intros <-. subst σ. rewrite lookup_insert_ne in Hf by done. congruence.
    + subst σ. destruct (heap s !! fresh (dom (<[metadata document:=d]> (heap s)))) eqn:Hh;
        [|done]. rewrite lookup_insert_ne in Hf by done. congruence.
    + done.
  - rewrite (from_document_shared w document s Hc).
    eexists. cbn. repeat split; try reflexivity.
    + apply read_insert_eq.
    + apply read_insert_eq.
    + by rewrite lookup_insert_eq.
    + intros l [x Hl]. destruct (decide (metadata document = l)) as [<-|Hn].
      * rewrite lookup_insert_eq. eauto.
      * rewrite lookup_insert_ne by done. eauto.
    + intros l Hl _. by rewrite lookup_insert_ne.
Qed.

(** ** Sequencing *)

Lemma bind_Ok {A B} (m : M A) (k : A → M B) s a :
  res (m s) = Ok a →
  bind m k s = mkOut (res (k a (st (m s)))) (st (k a (st (m s))))
                 (evs (m s) ++ evs (k a (st (m s)))).
Proof. intros H. unfold bind. by rewrite H. Qed.

Lemma bind_Raise {A B} (m : M A) (k : A → M B) s e :
  res (m s) = Raise e →
  bind m k s = mkOut (Raise e) (st (m s)) (evs (m s)).
Proof. intros H. unfold bind. by rewrite H. Qed.

(** ** Converting a list of documents *)

(** The comprehension of [__docs_to_data] never raises, calls nothing,
    yields one record per document and writes only to the documents'
    metadata mappings. *)
Lemma docs_to_data_spec w documents : ∀ s,
  ∃ rs,
    res (__docs_to_data w documents s) = Ok rs
    ∧ evs (__docs_to_data w documents s) = []
    ∧ self (st (__docs_to_data w documents s)) = self s
    ∧ length rs = length documents
    ∧ (∀ l, is_Some (heap s !! l) → is_Some (heap (st (__docs_to_data w documents s)) !! l))
    ∧ (∀ l, l ∉ map metadata documents → is_Some (heap s !! l) →
         heap (st (__docs_to_data w documents s)) !! l = heap s !! l).
Proof.
  induction documents as [|document rest IH]; intros s.
  - exists []. cbn. repeat split; auto.
  - destruct (from_document_spec w document s)
      as (r & Hr & He & Hself & _ & _ & _ & _ & Hmono & Hframe & _).
    destruct (IH (st (__from_document w document s)))
      as (rs & Hrs & He' & Hself' & Hlen & Hmono' & Hframe').
    exists (r :: rs). cbn [__docs_to_data].
    rewrite (bind_Ok _ _ _ _ Hr). cbn [res st evs].
    rewrite (bind_Ok _ _ _ _ Hrs). cbn [res st evs ret].
    rewrite He, He'. repeat split.
    + congruence.
    + cbn. by rewrite Hlen.
    + intros l Hl. by apply Hmono', Hmono.
    + intros l Hl Hs. cbn [map] in Hl. apply not_elem_of_cons in Hl as [Hl1 Hl2].
      rewrite Hframe' by auto. by apply Hframe.
Qed.

Lemma converted_id document m : converted document m !! "id" = Some (py_of_id (doc_id document)).
Proof. unfold converted. by rewrite lookup_insert_eq. Qed.

Lemma converted_text document m :
  converted document m !! "text" = Some (VStr (page_content document)).
Proof. unfold converted. rewrite lookup_insert_ne by done. by rewrite lookup_insert_eq. Qed.

Lemma converted_other document m key :
  key ≠ "text" → key ≠ "id" → converted document m !! key = m !! key.
Proof. intros H1 H2. unfold converted. by rewrite !lookup_insert_ne. Qed.

(** When the documents' metadata mappings exist and no later conversion can
    reach an earlier record's mapping (the record class copies, or the
    documents do not share a metadata mapping), every record still carries
    its own document's identifier once the whole list is converted. *)
Lemma docs_to_data_carries w documents : ∀ s rs,
  Forall (λ d, is_Some (heap s !! metadata d)) documents →
  data_copies w = true ∨ NoDup (map metadata documents) →
  res (__docs_to_data w documents s) = Ok rs →
  Forall2 (carries (heap (st (__docs_to_data w documents s)))) documents rs.
Proof.
  induction documents as [|document rest IH]; intros s rs0 Hwf Hsep Hres.
  - cbn in Hres. injection Hres as <-. constructor.
  - destruct (from_document_spec w document s)
      as (r & Hr & He & Hself & _ & Hrd & _ & Hin & Hmono & Hframe & Hcase).
    set (s1 := st (__from_document w document s)) in *.
    destruct (docs_to_data_spec w rest s1) as (rs & Hrs & _ & _ & _ & _ & Hframe').
    apply Forall_cons in Hwf as [Hwf0 Hwf].
    assert (Hwf1 : Forall (λ d, is_Some (heap s1 !! metadata d)) rest).
    { eapply Forall_impl; [exact Hwf|]. intros d Hd. by apply Hmono. }
    assert (Hsep1 : data_copies w = true ∨ NoDup (map metadata rest)).
    { destruct Hsep as [?|Hnd]; [by left|right]. cbn in Hnd. by apply NoDup_cons in Hnd as [_ ?]. }
    assert (Hnot : data r ∉ map metadata rest).
    { destruct (data_copies w) eqn:Hc.
      - destruct Hcase as [Hnone _]. intros Hel.
        apply list_elem_of_fmap in Hel as (d & Hd & Hel).
        rewrite Forall_forall in Hwf. specialize (Hwf d Hel).
        rewrite <- Hd in Hwf. rewrite Hnone in Hwf. by destruct Hwf.
      - destruct Hsep as [?|Hnd]; [done|]. rewrite Hcase.
        cbn in Hnd. by apply NoDup_cons in Hnd as [? _]. }
    specialize (IH s1 rs Hwf1 Hsep1 Hrs).
    cbn [__docs_to_data] in Hres |- *.
    rewrite (bind_Ok _ _ _ _ Hr) in Hres |- *. cbn [res st evs] in Hres |- *.
    fold s1 in Hres |- *.
    rewrite (bind_Ok _ _ _ _ Hrs) in Hres |- *. cbn [res st evs ret] in Hres |- *.
    injection Hres as <-. constructor; [|exact IH].
    unfold carries, read. rewrite (Hframe' _ Hnot Hin).
    fold (read (heap s1) (data r)). rewrite Hrd.
    split; [apply converted_id | apply converted_text].
Qed.

(** A mapping that exists and has an [id] entry still does after a
    conversion: the conversion either leaves it or writes an [id] into it. *)
Lemma from_document_keeps_id w document s l :
  is_Some (heap s !! l) → is_Some (read (heap s) l !! "id") →
  is_Some (heap (st (__from_document w document s)) !! l)
  ∧ is_Some (read (heap (st (__from_document w document s))) l !! "id").
Proof.
  intros Hl Hid.
  destruct (from_document_spec w document s)
    as (r & _ & _ & _ & _ & _ & Hm & _ & Hmono & Hframe & _).
  split; [by apply Hmono|].
  destruct (decide (l = metadata document)) as [->|Hne].
  - rewrite Hm, converted_id. eauto.
  - unfold read. by rewrite (Hframe l Hne Hl).
Qed.

Lemma docs_to_data_keeps_id w documents : ∀ s l,
  is_Some (heap s !! l) → is_Some (read (heap s) l !! "id") →
  is_Some (heap (st (__docs_to_data w documents s)) !! l)
  ∧ is_Some (read (heap (st (__docs_to_data w documents s))) l !! "id").
Proof.
  induction documents as [|document rest IH]; intros s l Hl Hid; [done|].
  destruct (from_document_spec w document s) as (r & Hr & _).
  destruct (docs_to_data_spec w rest (st (__from_document w document s))) as (rs & Hrs & _).
  destruct (from_document_keeps_id w document s l Hl Hid) as [Hl1 Hid1].
  cbn [__docs_to_data].
  rewrite (bind_Ok _ _ _ _ Hr). cbn [res st evs].
  rewrite (bind_Ok _ _ _ _ Hrs). cbn [res st evs ret].
  by apply IH.
Qed.

(** Every record that comes out of the comprehension has an [id] entry,
    shared mappings or not. *)
Lemma docs_to_data_has_id w documents : ∀ s rs,
  res (__docs_to_data w documents s) = Ok rs →
  Forall (λ r, is_Some (read (heap (st (__docs_to_data w documents s))) (data r) !! "id")) rs.
Proof.
  induction documents as [|document rest IH]; intros s rs0 Hres.
  - cbn in Hres. injection Hres as <-. constructor.
  - destruct (from_document_spec w document s)
      as (r & Hr & _ & _ & _ & Hrd & _ & Hin & _).
    destruct (docs_to_data_spec w rest (st (__from_document w document s))) as (rs & Hrs & _).
    specialize (IH _ rs Hrs).
    cbn [__docs_to_data] in Hres |- *.
    rewrite (bind_Ok _ _ _ _ Hr) in Hres |- *. cbn [res st evs] in Hres |- *.
    rewrite (bind_Ok _ _ _ _ Hrs) in Hres |- *. cbn [res st evs ret] in Hres |- *.
    injection Hres as <-. constructor; [|exact IH].
    apply docs_to_data_keeps_id; [exact Hin|]. rewrite Hrd, converted_id. eauto.
Qed.

Lemma has_id_collect (σ : store) (rs : list Data) :
  Forall (λ r, is_Some (read σ (data r) !! "id")) rs →
  ∃ ids, Forall2 (λ r i, read σ (data r) !! "id" = Some i) rs ids.
Proof.
  induction 1 as [|r rs [i Hi] _ [ids IH]].
  - exists []. constructor.
  - exists (i :: ids). by constructor.
Qed.

(** ** The two halves of the [try] block *)

Lemma bind_assoc {A B C} (m : M A) (k : A → M B) (h : B → M C) s :
  bind (bind m k) h s = bind m (fun a => bind (k a) h) s.
Proof.
  unfold bind. destruct (res (m s)); cbn; [|done].
  destruct (res (k a (st (m s)))); cbn; by rewrite ?app_assoc.
Qed.

Lemma bind_ext {A B} (m : M A) (k k' : A → M B) s :
  (∀ a s', k a s' = k' a s') → bind m k s = bind m k' s.
Proof. intros H. unfold bind. destruct (res (m s)); [|done]. by rewrite H. Qed.

Lemma bind_ret_l {A B} (a : A) (k : A → M B) s : bind (ret a) k s = k a s.
Proof. unfold bind, ret. cbn. by destruct (k a s). Qed.

Lemma delete_records_body_split w s :
  delete_records_body w s = bind (acquire w) (perform w) s.
Proof.
  unfold delete_records_body, acquire.
  repeat (rewrite bind_assoc; apply bind_ext; intros).
  by rewrite bind_ret_l.
Qed.

(** ** What reaches the outside *)

Lemma delete_calls_app l1 l2 : delete_calls (l1 ++ l2) = (delete_calls l1 ++ delete_calls l2)%list.
Proof. apply omap_app. Qed.

Lemma client_calls_app l1 l2 : client_calls (l1 ++ l2) = (client_calls l1 ++ client_calls l2)%list.
Proof. apply omap_app. Qed.

Lemma keeps_client_bind {A B} (m : M A) (k : A → M B) :
  keeps_client m → (∀ a, keeps_client (k a)) → keeps_client (bind m k).
Proof.
  intros Hm Hk s. destruct (Hm s) as [Hc He]. unfold bind.
  destruct (res (m s)) as [a|e]; cbn; [|done].
  destruct (Hk a (st (m s))) as [Hc' He'].
  rewrite client_calls_app, He, He', Hc', Hc. done.
Qed.

Lemma keeps_client_ret {A} (a : A) : keeps_client (ret a).
Proof. by intros s. Qed.

Lemma keeps_client_alloc d : keeps_client (alloc d).
Proof. by intros s. Qed.

Lemma keeps_client_log msg : keeps_client (log msg).
Proof. by intros s. Qed.

Lemma keeps_client_Data_new w l tk : keeps_client (Data_new w l tk).
Proof. unfold Data_new. destruct (data_copies w); by intros s. Qed.

Lemma keeps_client_Data_getattr r key : keeps_client (Data_getattr r key).
Proof. intros s. unfold Data_getattr. by destruct (read (heap s) (data r) !! key). Qed.

Lemma keeps_client_create_result_dict w n b msg df :
  keeps_client (__create_result_dict w n b msg df).
Proof.
  unfold __create_result_dict.
  apply keeps_client_bind; [apply keeps_client_alloc|]. intros d.
  apply keeps_client_bind; [apply keeps_client_Data_new|]. intros r.
  apply keeps_client_ret.
Qed.

Lemma keeps_client_docs_to_data w documents : keeps_client (__docs_to_data w documents).
Proof.
  intros s. destruct (docs_to_data_spec w documents s) as (rs & _ & He & Hself & _).
  by rewrite He, Hself.
Qed.

Lemma keeps_client_search_documents w : keeps_client (search_documents w).
Proof.
  unfold search_documents.
  apply keeps_client_bind; [by intros s|]. intros docs.
  apply keeps_client_bind; [apply keeps_client_docs_to_data|]. intros rs.
  apply keeps_client_bind; [apply keeps_client_log|]. intros _.
  apply keeps_client_bind; [by intros s|]. intros _.
  apply keeps_client_ret.
Qed.

Lemma keeps_client_collect_ids documents : keeps_client (collect_ids documents).
Proof.
  induction documents as [|doc rest IH]; [apply keeps_client_ret|]. cbn.
  apply keeps_client_bind; [apply keeps_client_Data_getattr|]. intros i.
  apply keeps_client_bind; [exact IH|]. intros ids. apply keeps_client_ret.
Qed.

Lemma keeps_client_build_filter documents : keeps_client (__build_filter documents).
Proof.
  unfold __build_filter.
  apply keeps_client_bind; [by intros s|]. intros me.
  destruct (py_truthy (advanced_search_filter me)); [apply keeps_client_ret|].
  apply keeps_client_bind; [apply keeps_client_collect_ids|]. intros ids.
  apply keeps_client_ret.
Qed.

Lemma keeps_client_perform w coll : keeps_client (perform w coll).
Proof.
  unfold perform.
  apply keeps_client_bind; [apply keeps_client_search_documents|]. intros documents.
  apply keeps_client_bind; [apply keeps_client_build_filter|]. intros f.
  apply keeps_client_bind; [destruct coll; by intros s|]. intros r.
  apply keeps_client_bind; [by intros s|]. intros stat.
  apply keeps_client_bind; [by intros s|]. intros count.
  apply keeps_client_bind; [apply keeps_client_log|]. intros _.
  apply keeps_client_ret.
Qed.

(** ** Getting hold of the client and the collection *)

(** Whatever happens in lines 47-55: which client the field holds
    afterwards, which constructions were made, and that nothing was deleted
    and no mapping written. *)
Lemma acquire_frame w s :
  client (self (st (acquire w s))) =
    (if obj_truthy (client (self s)) then client (self s)
     else match AstraDB w (token (self s)) (api_endpoint (self s)) with
          | Ok c => Some c
          | Raise _ => client (self s)
          end)
  ∧ client_calls (evs (acquire w s)) =
      (if obj_truthy (client (self s)) then []
       else [(token (self s), api_endpoint (self s))])
  ∧ delete_calls (evs (acquire w s)) = []
  ∧ heap (st (acquire w s)) = heap s
  ∧ advanced_search_filter (self (st (acquire w s))) = advanced_search_filter (self s).
Proof.
  destruct s as [[tok ep cn f cl stt] h]. run_acquire.
  destruct cl as [c|]; [destruct (truthy c) eqn:Ht|]; crunch.
  - destruct (collection w c cn) as [[k|]|e] eqn:Hk; crunch; [destruct (truthy k) eqn:Hkt|..]; crunch; done.
  - destruct (AstraDB w tok ep) as [c'|e]; crunch; [|done].
    destruct (truthy c') eqn:Ht'; crunch; [|done].
    destruct (collection w c' cn) as [[k|]|e] eqn:Hk; crunch; [destruct (truthy k) eqn:Hkt|..]; crunch; done.
  - destruct (AstraDB w tok ep) as [c'|e]; crunch; [|done].
    destruct (truthy c') eqn:Ht'; crunch; [|done].
    destruct (collection w c' cn) as [[k|]|e] eqn:Hk; crunch; [destruct (truthy k) eqn:Hkt|..]; crunch; done.
Qed.

(** Lines 47-55 when the client is obtained and the lookup answers. *)
Lemma acquire_lookup w s c r :
  obtains_client w s c →
  collection w c (collection_name (self s)) = Ok r →
  acquire w s =
    mkOut (if obj_truthy r then Ok r
           else Raise (Exception_ ("Collection " ++ collection_name (self s) ++ " not found")))
      (with_client c s)
      (construction s ++ [CallCollection c (collection_name (self s))]).
Proof.
  destruct s as [[tok ep cn f cl stt] h].
  intros [Ht [Hc|[Hf Hnew]]] Hk; unfold with_client, construction; cbn in *.
  - subst cl. run_acquire. crunch. by destruct (obj_truthy r).
  - run_acquire. crunch. by destruct (obj_truthy r).
Qed.

(** Lines 47-55 when the lookup itself raises. *)
Lemma acquire_lookup_raises w s c e :
  obtains_client w s c →
  collection w c (collection_name (self s)) = Raise e →
  acquire w s =
    mkOut (Raise e) (with_client c s)
      (construction s ++ [CallCollection c (collection_name (self s))]).
Proof.
  destruct s as [[tok ep cn f cl stt] h].
  intros [Ht [Hc|[Hf Hnew]]] Hk; unfold with_client, construction; cbn in *.
  - subst cl. run_acquire. by crunch.
  - run_acquire. by crunch.
Qed.

(** Lines 47-48 when the constructor raises. *)
Lemma acquire_construction_raises w s e :
  obj_truthy (client (self s)) = false →
  AstraDB w (token (self s)) (api_endpoint (self s)) = Raise e →
  acquire w s = mkOut (Raise e) s [CallAstraDB (token (self s)) (api_endpoint (self s))].
Proof.
  destruct s as [[tok ep cn f cl stt] h]. cbn. intros Hf Hnew.
  run_acquire. by crunch.
Qed.

(** ** Searching, building the filter, deleting *)

Lemma search_documents_found w s docs rs :
  _search_documents w = Ok docs →
  res (__docs_to_data w docs s) = Ok rs →
  search_documents w s =
    mkOut (Ok rs) (set_status rs (st (__docs_to_data w docs s)))
      [CallSearch;
       CallLog [Lit "Converted documents to data: "; Fmt (VInt (Z.of_nat (length rs)))]].
Proof.
  intros Hs Hrs. destruct (docs_to_data_spec w docs s) as (rs' & _ & He & _).
  unfold search_documents.
  rewrite (bind_Ok _ _ _ docs) by exact Hs. cbn [call res st evs].
  rewrite (bind_Ok _ _ _ rs) by exact Hrs. cbn [res st evs].
  rewrite He. reflexivity.
Qed.

Lemma search_documents_raises w s e :
  _search_documents w = Raise e →
  search_documents w s = mkOut (Raise e) s [CallSearch].
Proof.
  intros Hs. unfold search_documents.
  rewrite (bind_Raise _ _ _ e) by exact Hs. reflexivity.
Qed.

Lemma Data_getattr_found r key s v :
  read (heap s) (data r) !! key = Some v →
  Data_getattr r key s = mkOut (Ok v) s [].
Proof. intros H. unfold Data_getattr. by rewrite H. Qed.

(** Line 105 on records that all have an [id] entry. *)
Lemma collect_ids_found rs : ∀ s ids,
  Forall2 (λ r i, read (heap s) (data r) !! "id" = Some i) rs ids →
  collect_ids rs s = mkOut (Ok ids) s [].
Proof.
  induction rs as [|r rest IH]; intros s ids H; inversion H as [|? i ? ids' Hi Hrest]; subst.
  - reflexivity.
  - cbn [collect_ids].
    rewrite (bind_Ok _ _ _ i) by (by rewrite (Data_getattr_found r "id" s i)).
    rewrite (Data_getattr_found r "id" s i) by done. cbn [res st evs].
    rewrite (bind_Ok _ _ _ ids') by (by rewrite (IH s ids')).
    by rewrite (IH s ids').
Qed.

Lemma conclude_no_calls response documents :
  delete_calls (conclude response documents).2 = []
  ∧ client_calls (conclude response documents).2 = [].
Proof.
  unfold conclude. destruct response as [result|e]; [|done].
  destruct (py_getitem result "status") as [stat|e]; [|done].
  by destruct (py_getitem stat "deletedCount").
Qed.

(** Lines 57-63 once the search has answered and the filter is built. *)
Lemma perform_found w k s docs rs f :
  _search_documents w = Ok docs →
  res (__docs_to_data w docs s) = Ok rs →
  __build_filter rs (set_status rs (st (__docs_to_data w docs s)))
    = mkOut (Ok f) (set_status rs (st (__docs_to_data w docs s))) [] →
  perform w (Some k) s =
    mkOut (conclude (delete_many w k f) rs).1
      (set_status rs (st (__docs_to_data w docs s)))
      ([CallSearch;
        CallLog [Lit "Converted documents to data: "; Fmt (VInt (Z.of_nat (length rs)))];
        CallDeleteMany k f] ++ (conclude (delete_many w k f) rs).2).
Proof.
  intros Hs Hrs Hf. unfold perform.
  rewrite (bind_Ok _ _ _ rs) by (by rewrite (search_documents_found w s docs rs)).
  rewrite (search_documents_found w s docs rs) by done. cbn [res st evs].
  rewrite (bind_Ok _ _ _ f) by (by rewrite Hf). rewrite Hf. cbn [res st evs].
  unfold conclude, collection_delete_many, bind, call, log, emit, ret. cbn.
  destruct (delete_many w k f) as [result|e]; cbn; [|done].
  destruct (py_getitem result "status") as [stat|e]; cbn; [|done].
  by destruct (py_getitem stat "deletedCount").
Qed.

(** Lines 57 when the search raises: nothing else is called. *)
Lemma perform_search_raises w coll s e :
  _search_documents w = Raise e →
  perform w coll s = mkOut (Raise e) s [CallSearch].
Proof.
  intros Hs. unfold perform.
  rewrite (bind_Raise _ _ _ e) by (by rewrite (search_documents_raises w s e)).
  by rewrite (search_documents_raises w s e).
Qed.

Lemma out_eta {A} (o : Out A) : o = mkOut (res o) (st o) (evs o).
Proof. by destruct o. Qed.

Lemma reads_only_bind {A B} (m : M A) (k : A → M B) :
  reads_only m → (∀ a, reads_only (k a)) → reads_only (bind m k).
Proof.
  intros Hm Hk s. destruct (Hm s) as [Hs He]. unfold bind.
  destruct (res (m s)) as [a|e]; cbn; [|done].
  destruct (Hk a (st (m s))) as [Hs' He']. by rewrite He, He', Hs', Hs.
Qed.

Lemma reads_only_ret {A} (a : A) : reads_only (ret a).
Proof. by intros s. Qed.

Lemma reads_only_Data_getattr r key : reads_only (Data_getattr r key).
Proof. intros s. unfold Data_getattr. by destruct (read (heap s) (data r) !! key). Qed.

(** Building the filter reads; it writes nothing and calls nothing. *)
Lemma collect_ids_pure rs : reads_only (collect_ids rs).
Proof.
  induction rs as [|r rest IH]; [apply reads_only_ret|]. cbn [collect_ids].
  apply reads_only_bind; [apply reads_only_Data_getattr|]. intros i.
  apply reads_only_bind; [exact IH|]. intros ids. apply reads_only_ret.
Qed.

Lemma build_filter_pure rs : reads_only (__build_filter rs).
Proof.
  unfold __build_filter.
  apply reads_only_bind; [by intros s|]. intros me.
  destruct (py_truthy (advanced_search_filter me)); [apply reads_only_ret|].
  apply reads_only_bind; [apply collect_ids_pure|]. intros ids. apply reads_only_ret.
Qed.

Lemma build_filter_run rs s f :
  res (__build_filter rs s) = Ok f → __build_filter rs s = mkOut (Ok f) s [].
Proof.
  intros H. destruct (build_filter_pure rs s) as [Hs He].
  rewrite (out_eta (__build_filter rs s)). by rewrite H, Hs, He.
Qed.

(** Line 103-104: a truthy configured filter is returned as it is. *)
Lemma build_filter_configured rs s :
  py_truthy (advanced_search_filter (self s)) = true →
  __build_filter rs s = mkOut (Ok (advanced_search_filter (self s))) s [].
Proof. intros H. unfold __build_filter, bind, get_self. cbn. by rewrite H. Qed.

(** Lines 105-107: otherwise the [id] entries of the records are
    collected. *)
Lemma build_filter_ids rs s ids :
  py_truthy (advanced_search_filter (self s)) = false →
  Forall2 (λ r i, read (heap s) (data r) !! "id" = Some i) rs ids →
  __build_filter rs s = mkOut (Ok (id_filter ids)) s [].
Proof.
  intros H Hids. unfold __build_filter, bind, get_self. cbn. rewrite H.
  by rewrite (collect_ids_found rs s ids Hids).
Qed.

Lemma with_client_frame c s :
  heap (with_client c s) = heap s
  ∧ advanced_search_filter (self (with_client c s)) = advanced_search_filter (self s)
  ∧ collection_name (self (with_client c s)) = collection_name (self s).
Proof. unfold with_client. by destruct (obj_truthy (client (self s))). Qed.

Lemma searched_filter w docs c s :
  advanced_search_filter (self (searched w docs c s)) = advanced_search_filter (self s).
Proof.
  unfold searched.
  destruct (docs_to_data_spec w docs (with_client c s)) as (rs & Hrs & _ & Hself & _).
  rewrite Hrs. cbn. rewrite Hself. apply with_client_frame.
Qed.

(** The whole [try] block when the client, the collection and the search
    results are there and the filter is built. *)
Lemma delete_records_body_found w s c k docs rs f :
  obtains_client w s c →
  collection w c (collection_name (self s)) = Ok (Some k) →
  truthy k = true →
  _search_documents w = Ok docs →
  res (__docs_to_data w docs (with_client c s)) = Ok rs →
  res (__build_filter rs (searched w docs c s)) = Ok f →
  delete_records_body w s =
    mkOut (conclude (delete_many w k f) rs).1 (searched w docs c s)
      (construction s ++
       [CallCollection c (collection_name (self s));
        CallSearch;
        CallLog [Lit "Converted documents to data: "; Fmt (VInt (Z.of_nat (length rs)))];
        CallDeleteMany k f] ++ (conclude (delete_many w k f) rs).2).
Proof.
  intros Hc Hk Ht Hs Hrs Hf. rewrite delete_records_body_split.
  pose proof (acquire_lookup w s c (Some k) Hc Hk) as Ha. cbn [obj_truthy] in Ha.
  rewrite Ht in Ha.
  rewrite (bind_Ok _ _ _ (Some k)) by (by rewrite Ha). rewrite Ha. cbn [res st evs].
  unfold searched in *. rewrite Hrs in *.
  rewrite (perform_found w k _ docs rs f Hs Hrs (build_filter_run _ _ _ Hf)).
  cbn [res st evs]. by rewrite <- app_assoc.
Qed.

(** ** The failure record *)

Lemma failure_dict_lookup message :
  failure_dict message !! "deleted_count" = Some (VInt 0)
  ∧ failure_dict message !! "success" = Some (VBool false)
  ∧ failure_dict message !! "message" = Some (VStr message).
Proof.
  unfold failure_dict.
  rewrite lookup_insert_eq, lookup_insert_ne, lookup_insert_eq by done.
  by rewrite !lookup_insert_ne, lookup_insert_eq by done.
Qed.

(** [__create_result_dict] with the handler's arguments returns one failure
    record, calls nothing and leaves the fields of [self] alone. *)
Lemma create_result_dict_failure w message s :
  ∃ r,
    res (__create_result_dict w 0 false message VNone s) = Ok [r]
    ∧ evs (__create_result_dict w 0 false message VNone s) = []
    ∧ self (st (__create_result_dict w 0 false message VNone s)) = self s
    ∧ failure_record (heap (st (__create_result_dict w 0 false message VNone s))) r message.
Proof.
  unfold __create_result_dict, Data_new, failure_record.
  fold (failure_dict message).
  destruct (data_copies w); unfold bind, alloc, ret, set_heap; cbn.
  - eexists. repeat split. by rewrite !read_insert_eq.
  - eexists. repeat split. by rewrite read_insert_eq.
Qed.

(** The handler, lines 65-67, applied to what the [try] block raised, when
    that is of class [Exception]. *)
Lemma delete_records_caught w s e :
  res (delete_records_body w s) = Raise e →
  is_Exception e = true →
  ∃ r,
    res (delete_records w s) = Ok [r]
    ∧ evs (delete_records w s) = evs (delete_records_body w s)
    ∧ self (st (delete_records w s)) = self (st (delete_records_body w s))
    ∧ failure_record (heap (st (delete_records w s))) r
        ("Failed to delete records: " ++ exn_str e).
Proof.
  intros Hr Hexc. unfold delete_records, try_except. rewrite Hr. cbn zeta. rewrite Hexc.
  destruct (create_result_dict_failure w ("Failed to delete records: " ++ exn_str e)
              (st (delete_records_body w s))) as (r & H1 & H2 & H3 & H4).
  exists r. cbn [res st evs]. rewrite H2, app_nil_r. done.
Qed.

(** When the [try] block returns, so does the operation, with the same
    value, state and calls. *)
Lemma delete_records_returned w s v :
  res (delete_records_body w s) = Ok v →
  delete_records w s = delete_records_body w s.
Proof. intros Hr. unfold delete_records, try_except. by rewrite Hr. Qed.

(** An exception that is not of class [Exception] leaves the operation as
    it left the [try] block. *)
Lemma delete_records_uncaught w s e :
  res (delete_records_body w s) = Raise e →
  is_Exception e = false →
  delete_records w s = delete_records_body w s.
Proof. intros Hr Hexc. unfold delete_records, try_except. by rewrite Hr, Hexc. Qed.

(** * Main results *)

(** ** Document-to-record conversion (C7, C8) *)

(** C7. For every document, [__from_document] returns a record whose mapping
    is the document's metadata with ["text"] bound to the page content and
    ["id"] bound to the document's identifier: every metadata key is a key
    of the record, the two added keys hold the content and the identifier
    (a ["text"] entry of the metadata is overwritten), and every other key
    keeps its value. *)
Theorem from_document_record w document s :
  ∃ r,
    res (__from_document w document s) = Ok r
    ∧ text_key r = "text"
    ∧ read (heap (st (__from_document w document s))) (data r)
      = <["id" := py_of_id (doc_id document)]>
          (<["text" := VStr (page_content document)]> (read (heap s) (metadata document)))
    ∧ (∀ key, is_Some (read (heap s) (metadata document) !! key) →
         is_Some (read (heap (st (__from_document w document s))) (data r) !! key))
    ∧ read (heap (st (__from_document w document s))) (data r) !! "text"
      = Some (VStr (page_content document))
    ∧ read (heap (st (__from_document w document s))) (data r) !! "id"
      = Some (py_of_id (doc_id document))
    ∧ (∀ key, key ≠ "text" → key ≠ "id" →
         read (heap (st (__from_document w document s))) (data r) !! key
         = read (heap s) (metadata document) !! key).
Proof.
  destruct (from_document_spec w document s) as (r & Hr & _ & _ & Htk & Hd & _).
  exists r. rewrite Hd. repeat split; try done.
  - intros key Hk. destruct (decide (key = "id")) as [->|Hid].
    + rewrite converted_id. eauto.
    + destruct (decide (key = "text")) as [->|Htx].
      * rewrite converted_text. eauto.
      * by rewrite converted_other.
  - apply converted_text.
  - apply converted_id.
  - intros key H1 H2. by apply converted_other.
Qed.

(** A document whose metadata already has a ["text"] entry: the record's
    ["text"] is the page content, and so is the entry in the document's own
    metadata, whichever way the record class treats its mapping. *)
Example from_document_overwrites_text :
  ∀ copies,
    let o := __from_document (sample_world copies (Ok []))
               (mkDocument "hello" 0 (Some "a")) (sample_state VNone None) in
    read sample_heap 0 !! "text" = Some (VStr "stale")
    ∧ (∃ r, res o = Ok r ∧ read (heap (st o)) (data r) !! "text" = Some (VStr "hello")
            ∧ read (heap (st o)) (data r) !! "page" = Some (VInt 3))
    ∧ read (heap (st o)) 0 !! "text" = Some (VStr "hello").
Proof.
  intros [|]; repeat split; try (vm_compute; reflexivity);
    eexists; repeat split; vm_compute; reflexivity.
Qed.

(** C8, as stated, fails: it is not the case that every conversion leaves
    the source document's own metadata mapping as it was.  A document with
    empty metadata has a ["text"] entry in its metadata afterwards. *)
Lemma from_document_keeps_metadata_refuted :
  ¬ (∀ w document s,
       read (heap (st (__from_document w document s))) (metadata document)
       = read (heap s) (metadata document)).
Proof.
  intros H.
  specialize (H (sample_world true (Ok [])) (mkDocument "bye" 1 None)
                (sample_state VNone None)).
  apply (f_equal (λ m : dict, m !! "text")) in H.
  destruct (from_document_spec (sample_world true (Ok [])) (mkDocument "bye" 1 None)
              (sample_state VNone None)) as (r & _ & _ & _ & _ & _ & Hm & _).
  rewrite Hm, converted_text in H. cbn in H. vm_compute in H. discriminate.
Qed.

(** C8, amended.  After [__from_document] the source document's own
    metadata mapping is not unchanged: it holds its previous entries with
    ["text"] bound to the page content and ["id"] bound to the identifier
    (it does gain these two entries); no other existing mapping is changed.
    The returned record has the same entries, and the mapping it holds is
    not the same mutable mapping as the document's metadata: with a record
    class that stores a copy of the mapping it is given, it is a new
    object, distinct from the document's. *)
Theorem from_document_writes_metadata w document s :
  read (heap (st (__from_document w document s))) (metadata document)
  = <["id" := py_of_id (doc_id document)]>
      (<["text" := VStr (page_content document)]> (read (heap s) (metadata document)))
  ∧ (∀ l, l ≠ metadata document → is_Some (heap s !! l) →
       heap (st (__from_document w document s)) !! l = heap s !! l)
  ∧ (∃ r, res (__from_document w document s) = Ok r
          ∧ read (heap (st (__from_document w document s))) (data r)
            = read (heap (st (__from_document w document s))) (metadata document)
          ∧ (data_copies w = true →
             data r ≠ metadata document ∧ heap s !! data r = None)).
Proof.
  destruct (from_document_spec w document s)
    as (r & Hr & _ & _ & _ & Hd & Hm & _ & _ & Hframe & Hcase).
  repeat split; try done.
  exists r. split; [done|]. split; [by rewrite Hd, Hm|].
  intros Hc. rewrite Hc in Hcase. by destruct Hcase.
Qed.

(** C8, amended, with a record class that copies: the record's mapping is
    another object than the document's metadata. *)
Lemma from_document_writes_metadata_witness :
  ∃ r, res (__from_document (sample_world true (Ok [])) (mkDocument "hello" 0 (Some "a"))
              (sample_state VNone None)) = Ok r
       ∧ data r ≠ 0.
Proof.
  destruct (from_document_writes_metadata (sample_world true (Ok []))
              (mkDocument "hello" 0 (Some "a")) (sample_state VNone None))
    as (_ & _ & r & Hr & _ & Hc).
  exists r. split; [exact Hr | exact (proj1 (Hc eq_refl))].
Defined.

(** ** The operation as a whole *)

(** The handler adds no call and touches no field of [self]. *)
Lemma delete_records_frame w s :
  evs (delete_records w s) = evs (delete_records_body w s)
  ∧ self (st (delete_records w s)) = self (st (delete_records_body w s)).
Proof.
  destruct (res (delete_records_body w s)) as [v|e] eqn:Hr.
  - by rewrite (delete_records_returned w s v Hr).
  - destruct (is_Exception e) eqn:Hexc.
    + by destruct (delete_records_caught w s e Hr Hexc) as (r & _ & He & Hs & _).
    + by rewrite (delete_records_uncaught w s e Hr Hexc).
Qed.

(** The [try] block, seen from its two halves. *)
Lemma delete_records_body_cases w s :
  (∃ e, res (acquire w s) = Raise e
        ∧ delete_records_body w s = mkOut (Raise e) (st (acquire w s)) (evs (acquire w s)))
  ∨ (∃ coll, res (acquire w s) = Ok coll
        ∧ delete_records_body w s =
            mkOut (res (perform w coll (st (acquire w s))))
              (st (perform w coll (st (acquire w s))))
              (evs (acquire w s) ++ evs (perform w coll (st (acquire w s))))).
Proof.
  rewrite delete_records_body_split.
  destruct (res (acquire w s)) as [coll|e] eqn:Ha.
  - right. exists coll. split; [done|]. by apply bind_Ok.
  - left. exists e. split; [done|]. by apply bind_Raise.
Qed.

(** Which client the field holds after the operation and which
    constructions it made are decided in lines 47-55. *)
Lemma delete_records_client w s :
  client (self (st (delete_records w s))) = client (self (st (acquire w s)))
  ∧ client_calls (evs (delete_records w s)) = client_calls (evs (acquire w s)).
Proof.
  destruct (delete_records_frame w s) as [He Hs]. rewrite He, Hs.
  destruct (delete_records_body_cases w s) as [(e & _ & Hb)|(coll & _ & Hb)]; rewrite Hb;
    cbn [res st evs].
  - done.
  - destruct (keeps_client_perform w coll (st (acquire w s))) as [Hc Hn].
    by rewrite client_calls_app, Hn, app_nil_r, Hc.
Qed.

(** An exception raised at any of the steps is what the [try] block raises:
    by the constructor, by the collection lookup, by the search, or by the
    bulk delete. *)
Lemma try_block_raises w s c k docs rs f e :
  (obj_truthy (client (self s)) = false →
   AstraDB w (token (self s)) (api_endpoint (self s)) = Raise e →
   res (delete_records_body w s) = Raise e)
  ∧ (obtains_client w s c →
     collection w c (collection_name (self s)) = Raise e →
     res (delete_records_body w s) = Raise e)
  ∧ (obtains_client w s c →
     collection w c (collection_name (self s)) = Ok (Some k) →
     truthy k = true →
     _search_documents w = Raise e →
     res (delete_records_body w s) = Raise e)
  ∧ (obtains_client w s c →
     collection w c (collection_name (self s)) = Ok (Some k) →
     truthy k = true →
     _search_documents w = Ok docs →
     res (__docs_to_data w docs (with_client c s)) = Ok rs →
     res (__build_filter rs (searched w docs c s)) = Ok f →
     delete_many w k f = Raise e →
     res (delete_records_body w s) = Raise e).
Proof.
  repeat split.
  - intros Hf Hnew. rewrite delete_records_body_split.
    pose proof (acquire_construction_raises w s e Hf Hnew) as Ha.
    rewrite (bind_Raise _ _ _ e) by (by rewrite Ha). done.
  - intros Hc Hk. rewrite delete_records_body_split.
    pose proof (acquire_lookup_raises w s c e Hc Hk) as Ha.
    rewrite (bind_Raise _ _ _ e) by (by rewrite Ha). done.
  - intros Hc Hk Ht Hs. rewrite delete_records_body_split.
    pose proof (acquire_lookup w s c (Some k) Hc Hk) as Ha. cbn [obj_truthy] in Ha.
    rewrite Ht in Ha.
    rewrite (bind_Ok _ _ _ (Some k)) by (by rewrite Ha). cbn [res].
    by rewrite (perform_search_raises w (Some k) _ e Hs).
  - intros Hc Hk Ht Hs Hrs Hf Hd.
    rewrite (delete_records_body_found w s c k docs rs f Hc Hk Ht Hs Hrs Hf).
    cbn [res]. by rewrite Hd.
Qed.

(** C3, as stated, fails: [delete_records] does raise to its caller.  The
    handler of line 65 is [except Exception]; a [KeyboardInterrupt] raised
    while the bulk delete runs is not of that class and leaves the
    operation. *)
Lemma delete_records_never_raises_refuted :
  ¬ (∀ w s, ∃ rs, res (delete_records w s) = Ok rs).
Proof.
  intros H.
  destruct (H (mkWorld (λ _ _, Ok sample_client) (λ _ _, Ok (Some sample_collection))
                 (Ok sample_docs)
                 (λ _ _, Raise (Interrupt "KeyboardInterrupt" EmptyString)) true)
              (sample_state VNone None)) as [rs Hrs].
  vm_compute in Hrs. discriminate.
Qed.

(** C3, amended.  [delete_records] raises no exception of class [Exception]
    to its caller.  Whenever its [try] block raises an exception [e] of that
    class, at whichever step, it returns a single record whose mapping has
    [deleted_count] 0, [success] false and as [message] the text
    ["Failed to delete records: "] followed by [str(e)]; nothing else of the
    cause is in the record.  An exception that is not of class [Exception]
    is not caught and reaches the caller as it is. *)
Theorem delete_records_catches_exceptions w s :
  (∀ e, res (delete_records_body w s) = Raise e →
        is_Exception e = true →
        ∃ r, res (delete_records w s) = Ok [r]
             ∧ text_key r = "message"
             ∧ read (heap (st (delete_records w s))) (data r)
               = failure_dict ("Failed to delete records: " ++ exn_str e)
             ∧ read (heap (st (delete_records w s))) (data r) !! "deleted_count"
               = Some (VInt 0)
             ∧ read (heap (st (delete_records w s))) (data r) !! "success"
               = Some (VBool false)
             ∧ read (heap (st (delete_records w s))) (data r) !! "message"
               = Some (VStr ("Failed to delete records: " ++ exn_str e)))
  ∧ (∀ e, res (delete_records_body w s) = Raise e →
          is_Exception e = false →
          res (delete_records w s) = Raise e)
  ∧ ((∃ rs, res (delete_records w s) = Ok rs)
     ∨ (∃ e, is_Exception e = false ∧ res (delete_records w s) = Raise e)).
Proof.
  split; [|split].
  - intros e Hr Hexc.
    destruct (delete_records_caught w s e Hr Hexc) as (r & H & _ & _ & Htk & Hd).
    destruct (failure_dict_lookup ("Failed to delete records: " ++ exn_str e))
      as (H1 & H2 & H3).
    exists r. rewrite Hd. done.
  - intros e Hr Hexc. by rewrite (delete_records_uncaught w s e Hr Hexc).
  - destruct (res (delete_records_body w s)) as [v|e] eqn:Hr.
    + left. exists v. by rewrite (delete_records_returned w s v Hr).
    + destruct (is_Exception e) eqn:Hexc.
      * left. destruct (delete_records_caught w s e Hr Hexc) as (r & H & _). eauto.
      * right. exists e. by rewrite (delete_records_uncaught w s e Hr Hexc).
Qed.

(** C3, amended, at a search that raises a [ValueError]. *)
Lemma delete_records_catches_exceptions_witness :
  ∃ r, res (delete_records (sample_world true (Raise (SdkError "ValueError" "no index")))
              (sample_state VNone None)) = Ok [r]
       ∧ read (heap (st (delete_records
                           (sample_world true (Raise (SdkError "ValueError" "no index")))
                           (sample_state VNone None)))) (data r) !! "message"
         = Some (VStr "Failed to delete records: no index").
Proof.
  destruct (delete_records_catches_exceptions
              (sample_world true (Raise (SdkError "ValueError" "no index")))
              (sample_state VNone None)) as [H _].
  destruct (H (SdkError "ValueError" "no index") eq_refl eq_refl)
    as (r & Hr & _ & _ & _ & _ & Hm).
  exists r. split; [exact Hr | exact Hm].
Defined.



(** C6. If a client is obtained and the collection lookup hands back
    nothing (or any falsy object), [delete_records] returns exactly one
    record, with [deleted_count] 0 and [success] false and the message of
    line 55, and no bulk delete is issued. *)
Theorem missing_collection_reported w s c r0 :
  obtains_client w s c →
  collection w c (collection_name (self s)) = Ok r0 →
  obj_truthy r0 = false →
  ∃ r, res (delete_records w s) = Ok [r]
       ∧ read (heap (st (delete_records w s))) (data r) !! "deleted_count" = Some (VInt 0)
       ∧ read (heap (st (delete_records w s))) (data r) !! "success" = Some (VBool false)
       ∧ read (heap (st (delete_records w s))) (data r) !! "message"
         = Some (VStr ("Failed to delete records: Collection "
                       ++ collection_name (self s) ++ " not found"))
       ∧ delete_calls (evs (delete_records w s)) = [].
Proof.
  intros Hc Hk Hf.
  pose proof (acquire_lookup w s c r0 Hc Hk) as Ha. rewrite Hf in Ha.
  set (e := Exception_ ("Collection " ++ collection_name (self s) ++ " not found")) in *.
  assert (Hb : delete_records_body w s =
               mkOut (Raise e) (st (acquire w s)) (evs (acquire w s))).
  { rewrite delete_records_body_split. apply bind_Raise. by rewrite Ha. }
  destruct (delete_records_caught w s e) as (r & Hr & He & _ & _ & Hd);
    [by rewrite Hb|reflexivity|].
  destruct (failure_dict_lookup ("Failed to delete records: " ++ exn_str e)) as (H1 & H2 & H3).
  destruct (acquire_frame w s) as (_ & _ & Hdel & _).
  exists r. rewrite Hd, He, Hb. cbn [evs]. done.
Qed.

Lemma missing_collection_reported_witness :
  ∃ r, res (delete_records
              (mkWorld (λ _ _, Ok sample_client) (λ _ _, Ok None) (Ok sample_docs)
                 (λ _ _, Ok sample_response) false)
              (sample_state VNone None)) = Ok [r]
       ∧ delete_calls (evs (delete_records
              (mkWorld (λ _ _, Ok sample_client) (λ _ _, Ok None) (Ok sample_docs)
                 (λ _ _, Ok sample_response) false)
              (sample_state VNone None))) = [].
Proof.
  destruct (missing_collection_reported
              (mkWorld (λ _ _, Ok sample_client) (λ _ _, Ok None) (Ok sample_docs)
                 (λ _ _, Ok sample_response) false)
              (sample_state VNone None) sample_client None) as (r & Hr & _ & _ & _ & Hd).
  - split; [reflexivity|]. right. split; reflexivity.
  - reflexivity.
  - reflexivity.
  - exists r. split; [exact Hr | exact Hd].
Defined.

(** C9. The client is created lazily and then kept.  When the client field
    is truthy on entry, [delete_records] constructs no client and leaves the
    field as it is; when it is falsy, the constructor is called exactly
    once, with the component's token and endpoint, and the field holds what
    it returned (it is left as it was when the constructor raised).  Hence a
    second invocation on the state left by the first, whatever the outside
    then answers, reuses a truthy handle: no construction, same field. *)
Theorem client_created_once w s :
  (if obj_truthy (client (self s))
   then client (self (st (delete_records w s))) = client (self s)
        ∧ client_calls (evs (delete_records w s)) = []
   else client_calls (evs (delete_records w s))
          = [(token (self s), api_endpoint (self s))]
        ∧ client (self (st (delete_records w s)))
          = match AstraDB w (token (self s)) (api_endpoint (self s)) with
            | Ok c => Some c
            | Raise _ => client (self s)
            end)
  ∧ (∀ w', obj_truthy (client (self (st (delete_records w s)))) = true →
       client (self (st (delete_records w' (st (delete_records w s)))))
       = client (self (st (delete_records w s)))
       ∧ client_calls (evs (delete_records w' (st (delete_records w s)))) = []).
Proof.
  assert (Hone : ∀ w0 s0,
    if obj_truthy (client (self s0))
    then client (self (st (delete_records w0 s0))) = client (self s0)
         ∧ client_calls (evs (delete_records w0 s0)) = []
    else client_calls (evs (delete_records w0 s0))
           = [(token (self s0), api_endpoint (self s0))]
         ∧ client (self (st (delete_records w0 s0)))
           = match AstraDB w0 (token (self s0)) (api_endpoint (self s0)) with
             | Ok c => Some c
             | Raise _ => client (self s0)
             end).
  { intros w0 s0. destruct (delete_records_client w0 s0) as [Hc He].
    destruct (acquire_frame w0 s0) as (Hc' & He' & _). rewrite Hc, He, Hc', He'.
    by destruct (obj_truthy (client (self s0))). }
  split; [apply Hone|].
  intros w' Ht. specialize (Hone w' (st (delete_records w s))). by rewrite Ht in Hone.
Qed.

(** C9 on a component without a client, invoked twice. *)
Lemma client_created_once_witness :
  client_calls (evs (delete_records (sample_world true (Ok sample_docs))
                       (sample_state VNone None)))
    = [("token", "endpoint")]
  ∧ client_calls (evs (delete_records (sample_world true (Ok []))
                         (st (delete_records (sample_world true (Ok sample_docs))
                                (sample_state VNone None))))) = [].
Proof.
  destruct (client_created_once (sample_world true (Ok sample_docs))
              (sample_state VNone None)) as [H1 H2].
  split.
  - exact (proj1 H1).
  - apply (H2 (sample_world true (Ok []))).
    rewrite (proj2 H1). reflexivity.
Defined.

(** ** The filter handed to the bulk delete (C1, C2, C10) *)

(** Lines 47-55 return a collection only if it is a truthy object. *)
Lemma acquire_result w s coll :
  res (acquire w s) = Ok coll → ∃ k, coll = Some k ∧ truthy k = true.
Proof.
  destruct s as [[tok ep cn f cl stt] h]. run_acquire.
  destruct cl as [c|]; [destruct (truthy c) eqn:Ht|]; crunch.
  - destruct (collection w c cn) as [[k|]|e] eqn:Hk; crunch;
      [destruct (truthy k) eqn:Hkt|..]; crunch; try done.
    intros [= <-]. eauto.
  - destruct (AstraDB w tok ep) as [c'|e]; crunch; [|done].
    destruct (truthy c') eqn:Ht'; crunch; [|done].
    destruct (collection w c' cn) as [[k|]|e] eqn:Hk; crunch;
      [destruct (truthy k) eqn:Hkt|..]; crunch; try done.
    intros [= <-]. eauto.
  - destruct (AstraDB w tok ep) as [c'|e]; crunch; [|done].
    destruct (truthy c') eqn:Ht'; crunch; [|done].
    destruct (collection w c' cn) as [[k|]|e] eqn:Hk; crunch;
      [destruct (truthy k) eqn:Hkt|..]; crunch; try done.
    intros [= <-]. eauto.
Qed.

(** With a truthy configured filter, lines 57-63 issue one bulk delete, with
    that filter, as soon as the search answers, and none otherwise. *)
Lemma perform_configured w k s :
  py_truthy (advanced_search_filter (self s)) = true →
  delete_calls (evs (perform w (Some k) s)) =
    match _search_documents w with
    | Ok _ => [(k, advanced_search_filter (self s))]
    | Raise _ => []
    end.
Proof.
  intros Hf. destruct (_search_documents w) as [docs|e] eqn:Hs.
  - destruct (docs_to_data_spec w docs s) as (rs & Hrs & _ & Hself & _).
    assert (Hfs : advanced_search_filter (self (set_status rs (st (__docs_to_data w docs s))))
                  = advanced_search_filter (self s)) by (cbn; by rewrite Hself).
    pose proof (build_filter_configured rs (set_status rs (st (__docs_to_data w docs s)))) as Hb.
    rewrite Hfs in Hb. specialize (Hb Hf).
    rewrite (perform_found w k s docs rs _ Hs Hrs Hb). cbn [evs].
    rewrite delete_calls_app. destruct (conclude_no_calls (delete_many w k
      (advanced_search_filter (self s))) rs) as [Hn _]. by rewrite Hn.
  - by rewrite (perform_search_raises w (Some k) s e Hs).
Qed.

(** C1. With a truthy advanced search filter configured, every bulk delete
    that [delete_records] issues carries exactly that filter; and whenever
    the client and the collection are obtained and the search answers, with
    whatever documents, exactly one bulk delete is issued, on that
    collection, with that filter. *)
Theorem configured_filter_reaches_delete w s :
  py_truthy (advanced_search_filter (self s)) = true →
  (∀ k f, (k, f) ∈ delete_calls (evs (delete_records w s)) →
          f = advanced_search_filter (self s))
  ∧ (∀ c k docs,
       obtains_client w s c →
       collection w c (collection_name (self s)) = Ok (Some k) →
       truthy k = true →
       _search_documents w = Ok docs →
       delete_calls (evs (delete_records w s)) = [(k, advanced_search_filter (self s))]).
Proof.
  intros Hf.
  destruct (delete_records_frame w s) as [He _]. rewrite He.
  destruct (acquire_frame w s) as (_ & _ & Hnd & _ & Hfa).
  assert (Hf' : py_truthy (advanced_search_filter (self (st (acquire w s)))) = true)
    by (by rewrite Hfa).
  split.
  - intros k f.
    destruct (delete_records_body_cases w s) as [(e & _ & Hb)|(coll & Ha & Hb)];
      rewrite Hb; cbn [evs].
    + rewrite Hnd. by intros ?%elem_of_nil.
    + destruct (acquire_result w s coll Ha) as (k' & -> & _).
      rewrite delete_calls_app, Hnd, (perform_configured w k' _ Hf'), Hfa. cbn [app].
      destruct (_search_documents w); [|by intros ?%elem_of_nil].
      intros Hin%list_elem_of_singleton. by injection Hin as _ ->.
  - intros c k docs Hc Hk Ht Hs.
    pose proof (acquire_lookup w s c (Some k) Hc Hk) as Ha. cbn [obj_truthy] in Ha.
    rewrite Ht in Ha.
    destruct (delete_records_body_cases w s) as [(e & Ha' & _)|(coll & Ha' & Hb)].
    + rewrite Ha in Ha'. discriminate.
    + rewrite Hb. cbn [evs]. rewrite Ha in Ha'. cbn [res] in Ha'. injection Ha' as <-.
      by rewrite delete_calls_app, Hnd, (perform_configured w k _ Hf'), Hfa, Hs.
Qed.

(** C1 on two documents and on none: the filter is the configured one. *)
Lemma configured_filter_reaches_delete_witness :
  delete_calls (evs (delete_records (sample_world false (Ok sample_docs))
                       (sample_state (VDict {[ "genre" := VStr "poetry" ]}) None)))
    = [(sample_collection, VDict {[ "genre" := VStr "poetry" ]})]
  ∧ delete_calls (evs (delete_records (sample_world false (Ok []))
                       (sample_state (VDict {[ "genre" := VStr "poetry" ]}) None)))
    = [(sample_collection, VDict {[ "genre" := VStr "poetry" ]})].
Proof.
  split.
  - refine (proj2 (configured_filter_reaches_delete (sample_world false (Ok sample_docs))
                     (sample_state (VDict {[ "genre" := VStr "poetry" ]}) None) _)
              sample_client sample_collection sample_docs _ _ _ _);
      try (vm_compute; reflexivity).
    split; [reflexivity|]. right. split; reflexivity.
  - refine (proj2 (configured_filter_reaches_delete (sample_world false (Ok []))
                     (sample_state (VDict {[ "genre" := VStr "poetry" ]}) None) _)
              sample_client sample_collection [] _ _ _ _);
      try (vm_compute; reflexivity).
    split; [reflexivity|]. right. split; reflexivity.
Defined.

Lemma carries_ids σ docs rs :
  Forall2 (carries σ) docs rs →
  Forall2 (λ r i, read σ (data r) !! "id" = Some i) rs
    (map (λ d, py_of_id (doc_id d)) docs).
Proof.
  induction 1 as [|d r docs rs [Hid _] _ IH]; cbn; constructor; auto.
Qed.

(** C2. With no advanced search filter configured, the client and the
    collection obtained, and a search that matched N documents, exactly one
    bulk delete is issued, with the filter [{"_id": {"$in": [i1, ..., iN]}}]
    where [i1, ..., iN] are the identifiers of the N converted search
    results, in their order.  These are the identifiers of the matched
    documents themselves, in search-result order, when the documents'
    metadata mappings exist and no two documents share one (or the record
    class copies the mapping it is given). *)
Theorem id_filter_reaches_delete w s c k docs rs :
  advanced_search_filter (self s) = VNone →
  obtains_client w s c →
  collection w c (collection_name (self s)) = Ok (Some k) →
  truthy k = true →
  _search_documents w = Ok docs →
  res (__docs_to_data w docs (with_client c s)) = Ok rs →
  (∃ ids,
     Forall2 (λ r i, read (heap (searched w docs c s)) (data r) !! "id" = Some i) rs ids
     ∧ length ids = length docs
     ∧ delete_calls (evs (delete_records w s))
       = [(k, VDict {[ "_id" := VDict {[ "$in" := VList ids ]} ]})])
  ∧ (Forall (λ d, is_Some (heap s !! metadata d)) docs →
     data_copies w = true ∨ NoDup (map metadata docs) →
     delete_calls (evs (delete_records w s))
     = [(k, VDict {[ "_id" := VDict {[ "$in" :=
               VList (map (λ d, py_of_id (doc_id d)) docs) ]} ]})]).
Proof.
  intros Hf Hc Hk Ht Hs Hrs.
  destruct (with_client_frame c s) as (Hh & Hfw & _).
  destruct (docs_to_data_spec w docs (with_client c s)) as (rs' & Hrs' & _ & _ & Hlen & _).
  rewrite Hrs in Hrs'. injection Hrs' as <-.
  assert (Hfalse : py_truthy (advanced_search_filter (self (searched w docs c s))) = false)
    by (by rewrite searched_filter, Hf).
  assert (Hheap : heap (searched w docs c s)
                  = heap (st (__docs_to_data w docs (with_client c s))))
    by (unfold searched; by rewrite Hrs).
  assert (Hcalls : ∀ ids,
    Forall2 (λ r i, read (heap (searched w docs c s)) (data r) !! "id" = Some i) rs ids →
    delete_calls (evs (delete_records w s)) = [(k, id_filter ids)]).
  { intros ids Hids.
    assert (Hb : res (__build_filter rs (searched w docs c s)) = Ok (id_filter ids))
      by (by rewrite (build_filter_ids rs (searched w docs c s) ids Hfalse Hids)).
    destruct (delete_records_frame w s) as [He _]. rewrite He.
    rewrite (delete_records_body_found w s c k docs rs _ Hc Hk Ht Hs Hrs Hb). cbn [evs].
    rewrite !delete_calls_app.
    destruct (conclude_no_calls (delete_many w k (id_filter ids)) rs) as [Hn _].
    rewrite Hn. unfold construction. by destruct (obj_truthy (client (self s))). }
  split.
  - destruct (has_id_collect (heap (searched w docs c s)) rs) as [ids Hids].
    { rewrite Hheap. by apply docs_to_data_has_id. }
    exists ids. split; [done|]. split; [|by apply Hcalls].
    apply Forall2_length in Hids. congruence.
  - intros Hwf Hsep. apply Hcalls, carries_ids. rewrite Hheap.
    apply docs_to_data_carries; [by rewrite Hh|done|done].
Qed.

(** C2 on two documents with identifiers ["a"] and [None]. *)
Lemma id_filter_reaches_delete_witness :
  delete_calls (evs (delete_records (sample_world false (Ok sample_docs))
                       (sample_state VNone None)))
  = [(sample_collection,
      VDict {[ "_id" := VDict {[ "$in" := VList [VStr "a"; VNone] ]} ]})].
Proof.
  refine (proj2 (id_filter_reaches_delete (sample_world false (Ok sample_docs))
            (sample_state VNone None) sample_client sample_collection sample_docs
            [mkData 0 "text"; mkData 1 "text"]
            _ _ _ _ _ _) _ _).
  - reflexivity.
  - split; [reflexivity|]. right. split; reflexivity.
  - reflexivity.
  - reflexivity.
  - reflexivity.
  - vm_compute. reflexivity.
  - repeat constructor; vm_compute; eauto.
  - right. cbn. repeat constructor; rewrite ?elem_of_cons, ?elem_of_nil; lia.
Defined.

(** Why the documents must not share a metadata mapping when the record
    class keeps the mapping it is given: two documents on one mapping yield
    two records on that mapping, and both read the identifier written
    last.  With a record class that copies, each record keeps its own. *)
Example shared_mapping_last_identifier :
  delete_calls (evs (delete_records
     (sample_world false (Ok [mkDocument "hello" 0 (Some "a"); mkDocument "bye" 0 (Some "b")]))
     (sample_state VNone None)))
  = [(sample_collection, VDict {[ "_id" := VDict {[ "$in" := VList [VStr "b"; VStr "b"] ]} ]})]
  ∧ delete_calls (evs (delete_records
     (sample_world true (Ok [mkDocument "hello" 0 (Some "a"); mkDocument "bye" 0 (Some "b")]))
     (sample_state VNone None)))
  = [(sample_collection, VDict {[ "_id" := VDict {[ "$in" := VList [VStr "a"; VStr "b"] ]} ]})].
Proof. split; vm_compute; reflexivity. Qed.

(** C10. A configured filter that is falsy (the empty mapping, for one) is
    ignored: [__build_filter] returns what it returns with no filter at all,
    the identifier-membership filter over the [id] entries of the
    records. *)
Theorem falsy_filter_ignored documents s ids :
  py_truthy (advanced_search_filter (self s)) = false →
  Forall2 (λ r i, read (heap s) (data r) !! "id" = Some i) documents ids →
  res (__build_filter documents s)
  = Ok (VDict {[ "_id" := VDict {[ "$in" := VList ids ]} ]})
  ∧ res (__build_filter documents s) = res (__build_filter documents (set_filter VNone s)).
Proof.
  intros Hf Hids. split.
  - by rewrite (build_filter_ids documents s ids Hf Hids).
  - rewrite (build_filter_ids documents s ids Hf Hids).
    by rewrite (build_filter_ids documents (set_filter VNone s) ids).
Qed.

(** C10 with the empty mapping as the configured filter. *)
Lemma falsy_filter_ignored_witness :
  res (__build_filter [mkData 0 "text"; mkData 1 "text"]
         (mkState (mkComponent "token" "endpoint" "books" (VDict ∅) None None)
            {[ 0 := {[ "id" := VStr "a" ]}; 1 := {[ "id" := VStr "b" ]} ]}))
  = Ok (VDict {[ "_id" := VDict {[ "$in" := VList [VStr "a"; VStr "b"] ]} ]}).
Proof.
  refine (proj1 (falsy_filter_ignored [mkData 0 "text"; mkData 1 "text"]
            (mkState (mkComponent "token" "endpoint" "books" (VDict ∅) None None)
               {[ 0 := {[ "id" := VStr "a" ]}; 1 := {[ "id" := VStr "b" ]} ]})
            [VStr "a"; VStr "b"] _ _)).
  - vm_compute. reflexivity.
  - repeat constructor; vm_compute; reflexivity.
Defined.

(** ** The records returned (C4) *)

(** C4. When the client and the collection are obtained, the search matches
    [docs] and converts them to the records [rs], the filter [f] is built
    and the bulk delete with [f] succeeds, [delete_records] returns the
    first five elements of [rs], in order: min(5, N) records for N matched
    documents.  [rs] is what the search sub-operation returned and cached in
    [self.status]. *)
Theorem returns_first_five w s c k docs rs f :
  obtains_client w s c →
  collection w c (collection_name (self s)) = Ok (Some k) →
  truthy k = true →
  _search_documents w = Ok docs →
  res (__docs_to_data w docs (with_client c s)) = Ok rs →
  res (__build_filter rs (searched w docs c s)) = Ok f →
  delete_succeeds w k f →
  res (delete_records w s) = Ok (firstn 5 rs)
  ∧ length (firstn 5 rs) = Nat.min 5 (length docs)
  ∧ res (search_documents w (with_client c s)) = Ok rs
  ∧ status (self (st (delete_records w s))) = Some rs.
Proof.
  intros Hc Hk Ht Hs Hrs Hf (result & stat & count & Hd & Hst & Hcnt).
  pose proof (delete_records_body_found w s c k docs rs f Hc Hk Ht Hs Hrs Hf) as Hb.
  unfold conclude in Hb. rewrite Hd, Hst, Hcnt in Hb. cbn [fst snd] in Hb.
  assert (Hr : res (delete_records_body w s) = Ok (firstn 5 rs)) by (by rewrite Hb).
  rewrite (delete_records_returned w s _ Hr), Hb. cbn [res st].
  destruct (docs_to_data_spec w docs (with_client c s)) as (rs' & Hrs' & _ & _ & Hlen & _).
  rewrite Hrs in Hrs'. injection Hrs' as <-.
  repeat split.
  - by rewrite length_take, Hlen, Nat.min_comm.
  - by rewrite (search_documents_found w _ docs rs Hs Hrs).
  - unfold searched. by rewrite Hrs.
Qed.

(** C4 on seven matched documents: five records come back. *)
Lemma returns_first_five_witness :
  res (delete_records (sample_world false (Ok seven_docs)) seven_state)
  = Ok [mkData 0 "text"; mkData 1 "text"; mkData 2 "text"; mkData 3 "text"; mkData 4 "text"].
Proof.
  refine (proj1 (returns_first_five (sample_world false (Ok seven_docs)) seven_state
            sample_client sample_collection seven_docs
            [mkData 0 "text"; mkData 1 "text"; mkData 2 "text"; mkData 3 "text";
             mkData 4 "text"; mkData 5 "text"; mkData 6 "text"]
            (VDict {[ "_id" := VDict {[ "$in" :=
               VList [VStr "a"; VStr "b"; VStr "c"; VStr "d"; VStr "e"; VStr "f"; VStr "g"]
             ]} ]})
            _ _ _ _ _ _ _)); try (vm_compute; reflexivity).
  - split; [reflexivity|]. right. split; reflexivity.
  - exists sample_response, (VDict {[ "deletedCount" := VInt 2 ]}), (VInt 2).
    repeat split; vm_compute; reflexivity.
Defined.

(** * Further properties of the component *)

(** ** The search sub-operation *)

Lemma bind_Ok_inv {A B} (m : M A) (k : A → M B) s b :
  res (bind m k s) = Ok b →
  ∃ a, res (m s) = Ok a ∧ res (k a (st (m s))) = Ok b.
Proof.
  unfold bind. destruct (res (m s)) as [a|e]; cbn; [|done]. intros H. eauto.
Qed.

Lemma bind_evs_prefix {A B} (m : M A) (k : A → M B) s :
  ∃ t, evs (bind m k s) = (evs (m s) ++ t)%list.
Proof.
  unfold bind. destruct (res (m s)) as [a|e]; cbn.
  - eauto.
  - exists []. by rewrite app_nil_r.
Qed.

Lemma docs_to_data_text_key w documents : ∀ s rs,
  res (__docs_to_data w documents s) = Ok rs → Forall (λ r, text_key r = "text") rs.
Proof.
  induction documents as [|document rest IH]; intros s rs0 Hres.
  - cbn in Hres. injection Hres as <-. constructor.
  - destruct (from_document_spec w document s) as (r & Hr & _ & _ & Htk & _).
    destruct (docs_to_data_spec w rest (st (__from_document w document s))) as (rs & Hrs & _).
    cbn [__docs_to_data] in Hres.
    rewrite (bind_Ok _ _ _ _ Hr) in Hres. cbn [res st evs] in Hres.
    rewrite (bind_Ok _ _ _ _ Hrs) in Hres. cbn [res st evs ret] in Hres.
    injection Hres as <-. constructor; [done|]. by eapply IH.
Qed.

(** X1. When the inherited search answers with N documents,
    [search_documents] returns N records with text key ["text"], stores that
    very list in [self.status], leaves the client field alone, and its only
    calls are the search and one log line giving N. *)
Theorem search_documents_caches w s docs :
  _search_documents w = Ok docs →
  ∃ rs,
    res (search_documents w s) = Ok rs
    ∧ length rs = length docs
    ∧ Forall (λ r, text_key r = "text") rs
    ∧ status (self (st (search_documents w s))) = Some rs
    ∧ client (self (st (search_documents w s))) = client (self s)
    ∧ evs (search_documents w s)
      = [CallSearch;
         CallLog [Lit "Converted documents to data: ";
                  Fmt (VInt (Z.of_nat (length docs)))]].
Proof.
  intros Hs.
  destruct (docs_to_data_spec w docs s) as (rs & Hrs & _ & Hself & Hlen & _).
  exists rs. rewrite (search_documents_found w s docs rs Hs Hrs). cbn.
  rewrite Hself, Hlen. repeat split; try done.
  by eapply docs_to_data_text_key.
Qed.

Lemma search_documents_caches_witness :
  ∃ rs, res (search_documents (sample_world true (Ok sample_docs)) (sample_state VNone None))
        = Ok rs
        ∧ length rs = 2
        ∧ status (self (st (search_documents (sample_world true (Ok sample_docs))
                              (sample_state VNone None)))) = Some rs.
Proof.
  destruct (search_documents_caches (sample_world true (Ok sample_docs))
              (sample_state VNone None) sample_docs eq_refl)
    as (rs & Hr & Hl & _ & Hs & _).
  exists rs. repeat split; [exact Hr | exact Hl | exact Hs].
Defined.

(** X2. [search_documents] has no handler of its own: an exception of the
    inherited search comes out as it is, nothing is converted or logged, and
    the state, [self.status] included, stays as it was. *)
Theorem search_documents_propagates w s e :
  _search_documents w = Raise e →
  res (search_documents w s) = Raise e
  ∧ st (search_documents w s) = s
  ∧ evs (search_documents w s) = [CallSearch].
Proof. intros Hs. by rewrite (search_documents_raises w s e Hs). Qed.

Lemma search_documents_propagates_witness :
  res (search_documents (sample_world true (Raise (SdkError "ValueError" "no index")))
         (sample_state VNone None))
  = Raise (SdkError "ValueError" "no index").
Proof.
  exact (proj1 (search_documents_propagates
                  (sample_world true (Raise (SdkError "ValueError" "no index")))
                  (sample_state VNone None) (SdkError "ValueError" "no index") eq_refl)).
Defined.

(** ** Converting documents *)

(** X3. [__docs_to_data] writes to the metadata mappings of the documents it
    converts and to nothing else that existed: every other mapping of the
    store is as before; it calls nothing and assigns no field of [self]. *)
Theorem docs_to_data_writes_only_metadata w documents s l :
  is_Some (heap s !! l) →
  l ∉ map metadata documents →
  heap (st (__docs_to_data w documents s)) !! l = heap s !! l
  ∧ evs (__docs_to_data w documents s) = []
  ∧ self (st (__docs_to_data w documents s)) = self s.
Proof.
  intros Hl Hnot.
  destruct (docs_to_data_spec w documents s) as (rs & _ & He & Hself & _ & _ & Hframe).
  repeat split; auto.
Qed.

Lemma docs_to_data_writes_only_metadata_witness :
  heap (st (__docs_to_data (sample_world true (Ok [])) [mkDocument "hello" 0 (Some "a")]
              (sample_state VNone None))) !! 1
  = sample_heap !! 1.
Proof.
  refine (proj1 (docs_to_data_writes_only_metadata (sample_world true (Ok []))
                   [mkDocument "hello" 0 (Some "a")] (sample_state VNone None) 1 _ _)).
  - vm_compute. eauto.
  - cbn. rewrite elem_of_cons, elem_of_nil. lia.
Defined.

Lemma converted_idem document m :
  converted document (converted document m) = converted document m.
Proof.
  apply map_eq. intros key.
  destruct (decide (key = "id")) as [->|Hid]; [by rewrite !converted_id|].
  destruct (decide (key = "text")) as [->|Htx]; [by rewrite !converted_text|].
  by rewrite !converted_other.
Qed.

(** X5. Converting a document a second time changes nothing: its metadata
    mapping stays as the first conversion left it, and the second record
    has the same entries as the first. *)
Theorem from_document_idempotent w document s :
  read (heap (st (__from_document w document (st (__from_document w document s)))))
    (metadata document)
  = read (heap (st (__from_document w document s))) (metadata document)
  ∧ ∃ r1 r2,
      res (__from_document w document s) = Ok r1
      ∧ res (__from_document w document (st (__from_document w document s))) = Ok r2
      ∧ read (heap (st (__from_document w document (st (__from_document w document s)))))
          (data r2)
        = read (heap (st (__from_document w document s))) (data r1).
Proof.
  destruct (from_document_spec w document s) as (r1 & Hr1 & _ & _ & _ & Hd1 & Hm1 & _).
  destruct (from_document_spec w document (st (__from_document w document s)))
    as (r2 & Hr2 & _ & _ & _ & Hd2 & Hm2 & _).
  rewrite Hm2, Hm1, converted_idem. split; [done|].
  exists r1, r2. by rewrite Hd2, Hd1, Hm1, converted_idem.
Qed.

(** The comprehension on documents whose metadata mappings exist, are
    pairwise distinct and hold [m0] at the start. *)
Lemma docs_to_data_contents_from w documents (m0 : loc → dict) : ∀ s rs,
  Forall (λ d, is_Some (heap s !! metadata d)) documents →
  NoDup (map metadata documents) →
  Forall (λ d, read (heap s) (metadata d) = m0 (metadata d)) documents →
  res (__docs_to_data w documents s) = Ok rs →
  Forall2 (λ d r,
      read (heap (st (__docs_to_data w documents s))) (data r)
      = converted d (m0 (metadata d))
      ∧ read (heap (st (__docs_to_data w documents s))) (metadata d)
        = converted d (m0 (metadata d)))
    documents rs.
Proof.
  induction documents as [|document rest IH]; intros s rs0 Hwf Hnd Hm0 Hres.
  - cbn in Hres. injection Hres as <-. constructor.
  - destruct (from_document_spec w document s)
      as (r & Hr & _ & _ & _ & Hrd & Hrm & Hin & Hmono & Hframe & Hcase).
    set (s1 := st (__from_document w document s)) in *.
    destruct (docs_to_data_spec w rest s1) as (rs & Hrs & _ & _ & _ & _ & Hframe').
    apply Forall_cons in Hwf as [Hwf0 Hwf].
    apply Forall_cons in Hm0 as [Hm00 Hm0].
    cbn [map] in Hnd. apply NoDup_cons in Hnd as [Hnotin Hnd].
    assert (Hwf1 : Forall (λ d, is_Some (heap s1 !! metadata d)) rest).
    { eapply Forall_impl; [exact Hwf|]. intros d Hd. by apply Hmono. }
    assert (Hm1 : Forall (λ d, read (heap s1) (metadata d) = m0 (metadata d)) rest).
    { rewrite Forall_forall in Hwf, Hm0 |- *. intros d Hd.
      rewrite <- (Hm0 d Hd). unfold read. rewrite Hframe; [done| |by apply Hwf].
      intros Heq. apply Hnotin. rewrite <- Heq. apply list_elem_of_fmap. eauto. }
    assert (Hnot : data r ∉ map metadata rest).
    { destruct (data_copies w) eqn:Hc.
      - destruct Hcase as [Hnone _]. intros Hel.
        apply list_elem_of_fmap in Hel as (d & Hd & Hel).
        rewrite Forall_forall in Hwf. specialize (Hwf d Hel).
        rewrite <- Hd in Hwf. rewrite Hnone in Hwf. by destruct Hwf.
      - by rewrite Hcase. }
    specialize (IH s1 rs Hwf1 Hnd Hm1 Hrs).
    cbn [__docs_to_data] in Hres |- *.
    rewrite (bind_Ok _ _ _ _ Hr) in Hres |- *. cbn [res st evs] in Hres |- *.
    fold s1 in Hres |- *.
    rewrite (bind_Ok _ _ _ _ Hrs) in Hres |- *. cbn [res st evs ret] in Hres |- *.
    injection Hres as <-. constructor; [|exact IH].
    unfold read. rewrite (Hframe' _ Hnot Hin), (Hframe' _ Hnotin (Hmono _ Hwf0)).
    fold (read (heap s1) (data r)). fold (read (heap s1) (metadata document)).
    by rewrite Hrd, Hrm, Hm00.
Qed.

(** X4. On documents whose metadata mappings exist and are pairwise
    distinct, [__docs_to_data] yields, in order, one record per document
    whose mapping is that document's original metadata with ["text"] bound
    to its page content and ["id"] to its identifier; each document's own
    metadata ends up with the same entries. *)
Theorem docs_to_data_contents w documents s rs :
  Forall (λ d, is_Some (heap s !! metadata d)) documents →
  NoDup (map metadata documents) →
  res (__docs_to_data w documents s) = Ok rs →
  Forall2 (λ d r,
      read (heap (st (__docs_to_data w documents s))) (data r)
      = <["id" := py_of_id (doc_id d)]>
          (<["text" := VStr (page_content d)]> (read (heap s) (metadata d)))
      ∧ read (heap (st (__docs_to_data w documents s))) (metadata d)
        = read (heap (st (__docs_to_data w documents s))) (data r))
    documents rs.
Proof.
  intros Hwf Hnd Hres.
  eapply Forall2_impl;
    [apply (docs_to_data_contents_from w documents (read (heap s)) s rs Hwf Hnd); [|done]|].
  - by apply Forall_forall.
  - intros d r [H1 H2]. by rewrite H1, H2.
Qed.

Lemma docs_to_data_contents_witness :
  Forall2 (λ d r,
      read (heap (st (__docs_to_data (sample_world false (Ok [])) sample_docs
                        (sample_state VNone None)))) (data r) !! "text"
      = Some (VStr (page_content d)))
    sample_docs [mkData 0 "text"; mkData 1 "text"].
Proof.
  eapply Forall2_impl.
  - apply (docs_to_data_contents (sample_world false (Ok [])) sample_docs
             (sample_state VNone None) [mkData 0 "text"; mkData 1 "text"]).
    + repeat constructor; vm_compute; eauto.
    + cbn. repeat constructor; rewrite ?elem_of_cons, ?elem_of_nil; lia.
    + vm_compute. reflexivity.
  - intros d r [H _]. rewrite H.
    rewrite lookup_insert_ne by done. by rewrite lookup_insert_eq.
Defined.

(** ** The result record *)

(** [__create_result_dict] in full: the record, its mapping, and what it
    leaves alone. *)
Lemma create_result_dict_spec w n b message df s :
  ∃ r,
    res (__create_result_dict w n b message df s) = Ok [r]
    ∧ text_key r = "message"
    ∧ read (heap (st (__create_result_dict w n b message df s))) (data r)
      = <["deleted_count" := VInt n]>
          (<["success" := VBool b]>
             (<["message" := VStr message]> (<["dataframe" := df]> ∅)))
    ∧ dom (read (heap (st (__create_result_dict w n b message df s))) (data r))
      = ({["deleted_count"; "success"; "message"; "dataframe"]} : gset string)
    ∧ heap s !! data r = None
    ∧ (∀ l, is_Some (heap s !! l) →
         heap (st (__create_result_dict w n b message df s)) !! l = heap s !! l)
    ∧ evs (__create_result_dict w n b message df s) = []
    ∧ self (st (__create_result_dict w n b message df s)) = self s.
Proof.
  unfold __create_result_dict, Data_new.
  set (d := <["deleted_count" := VInt n]> _).
  assert (Hdom : dom d = ({["deleted_count"; "success"; "message"; "dataframe"]} : gset string)).
  { subst d. rewrite !dom_insert_L, dom_empty_L. set_solver. }
  set (l0 := fresh (dom (heap s))).
  assert (Hl0 : heap s !! l0 = None) by apply fresh_loc_not_in.
  destruct (data_copies w); unfold bind, alloc, ret, set_heap; cbn; fold l0.
  - set (l1 := fresh (dom (<[l0 := d]> (heap s)))).
    assert (Hl1 : <[l0 := d]> (heap s) !! l1 = None) by apply fresh_loc_not_in.
    assert (Hne : l0 ≠ l1) by (intros <-; by rewrite lookup_insert_eq in Hl1).
    rewrite lookup_insert_ne in Hl1 by done.
    eexists. repeat split; try done.
    + by rewrite !read_insert_eq.
    + by rewrite !read_insert_eq.
    + intros l [x Hl]. rewrite !lookup_insert_ne; [done|congruence|congruence].
  - eexists. repeat split; try done.
    + by rewrite read_insert_eq.
    + by rewrite read_insert_eq.
    + intros l [x Hl]. rewrite lookup_insert_ne; [done|congruence].
Qed.

(** X6. [__create_result_dict], whatever its arguments, returns exactly one
    record with text key ["message"] whose mapping is a new object holding
    the four entries [deleted_count], [success], [message] and [dataframe]
    and no other; it calls nothing, assigns no field of [self] and leaves
    every existing mapping as it was. *)
Theorem create_result_dict_record w n b message df s :
  ∃ r,
    res (__create_result_dict w n b message df s) = Ok [r]
    ∧ text_key r = "message"
    ∧ read (heap (st (__create_result_dict w n b message df s))) (data r)
      = <["deleted_count" := VInt n]>
          (<["success" := VBool b]>
             (<["message" := VStr message]> (<["dataframe" := df]> ∅)))
    ∧ dom (read (heap (st (__create_result_dict w n b message df s))) (data r))
      = ({["deleted_count"; "success"; "message"; "dataframe"]} : gset string)
    ∧ heap s !! data r = None
    ∧ (∀ l, is_Some (heap s !! l) →
         heap (st (__create_result_dict w n b message df s)) !! l = heap s !! l)
    ∧ evs (__create_result_dict w n b message df s) = []
    ∧ self (st (__create_result_dict w n b message df s)) = self s.
Proof. apply create_result_dict_spec. Qed.

(** ** The trace of an invocation *)

(** Lines 47-55 return a collection only when a truthy client was obtained
    and the lookup on it answered with a truthy object. *)
Lemma acquire_inv w s coll :
  res (acquire w s) = Ok coll →
  ∃ c k, coll = Some k ∧ truthy k = true ∧ obtains_client w s c
         ∧ collection w c (collection_name (self s)) = Ok (Some k).
Proof.
  destruct s as [[tok ep cn f cl stt] h]. unfold obtains_client. run_acquire.
  destruct cl as [c|]; [destruct (truthy c) eqn:Ht|]; crunch.
  - destruct (collection w c cn) as [[k|]|e] eqn:Hk; crunch;
      [destruct (truthy k) eqn:Hkt|..]; crunch; try done.
    intros [= <-]. exists c, k. eauto 10.
  - destruct (AstraDB w tok ep) as [c'|e] eqn:Hnew; crunch; [|done].
    destruct (truthy c') eqn:Ht'; crunch; [|done].
    destruct (collection w c' cn) as [[k|]|e] eqn:Hk; crunch;
      [destruct (truthy k) eqn:Hkt|..]; crunch; try done.
    intros [= <-]. exists c', k. eauto 10.
  - destruct (AstraDB w tok ep) as [c'|e] eqn:Hnew; crunch; [|done].
    destruct (truthy c') eqn:Ht'; crunch; [|done].
    destruct (collection w c' cn) as [[k|]|e] eqn:Hk; crunch;
      [destruct (truthy k) eqn:Hkt|..]; crunch; try done.
    intros [= <-]. exists c', k. eauto 10.
Qed.

(** Lines 57-59 when building the filter raises: no delete is issued. *)
Lemma perform_filter_raises w coll s docs rs e :
  _search_documents w = Ok docs →
  res (__docs_to_data w docs s) = Ok rs →
  res (__build_filter rs (set_status rs (st (__docs_to_data w docs s)))) = Raise e →
  perform w coll s =
    mkOut (Raise e) (set_status rs (st (__docs_to_data w docs s)))
      [CallSearch;
       CallLog [Lit "Converted documents to data: "; Fmt (VInt (Z.of_nat (length rs)))]].
Proof.
  intros Hs Hrs Hf. unfold perform.
  rewrite (bind_Ok _ _ _ rs) by (by rewrite (search_documents_found w s docs rs)).
  rewrite (search_documents_found w s docs rs) by done. cbn [res st evs].
  destruct (build_filter_pure rs (set_status rs (st (__docs_to_data w docs s)))) as [Hst He].
  rewrite (bind_Raise _ _ _ e) by done. by rewrite Hst, He.
Qed.

(** The outcome of [delete_records] once the [try] block is known. *)
Lemma delete_records_of_body w s o :
  delete_records_body w s = o →
  evs (delete_records w s) = evs o
  ∧ self (st (delete_records w s)) = self (st o)
  ∧ match res o with
    | Ok v => res (delete_records w s) = Ok v ∧ st (delete_records w s) = st o
    | Raise e =>
        if is_Exception e
        then ∃ r, res (delete_records w s) = Ok [r]
                  ∧ failure_record (heap (st (delete_records w s))) r
                      ("Failed to delete records: " ++ exn_str e)
                  ∧ ∀ l, is_Some (heap (st o) !! l) →
                         heap (st (delete_records w s)) !! l = heap (st o) !! l
        else res (delete_records w s) = Raise e ∧ st (delete_records w s) = st o
    end.
Proof.
  intros <-. destruct (delete_records_frame w s) as [He Hs].
  repeat split; try done.
  destruct (res (delete_records_body w s)) as [v|e] eqn:Hr.
  - by rewrite (delete_records_returned w s v Hr).
  - destruct (is_Exception e) eqn:Hexc.
    + unfold delete_records, try_except. rewrite Hr. cbn zeta. rewrite Hexc.
      destruct (create_result_dict_spec w 0 false ("Failed to delete records: " ++ exn_str e)
                  VNone (st (delete_records_body w s)))
        as (r & H1 & H2 & H3 & _ & _ & H6 & _).
      exists r. cbn [res st]. repeat split; done.
    + by rewrite (delete_records_uncaught w s e Hr Hexc).
Qed.

(** X7. Whatever the outside answers, one invocation of [delete_records]
    issues at most one bulk delete; when it issues one, a truthy client was
    obtained, and the calls were, in this order: the construction (only if
    the client field was falsy), the collection lookup by the configured
    name, the search, the log line with the number of matches, the bulk
    delete on a truthy collection, and then at most the log line with the
    count. *)
Theorem delete_records_trace w s :
  delete_calls (evs (delete_records w s)) = []
  ∨ ∃ c k f docs tail,
      obtains_client w s c
      ∧ truthy k = true
      ∧ _search_documents w = Ok docs
      ∧ delete_calls (evs (delete_records w s)) = [(k, f)]
      ∧ evs (delete_records w s)
        = (construction s ++
           [CallCollection c (collection_name (self s));
            CallSearch;
            CallLog [Lit "Converted documents to data: ";
                     Fmt (VInt (Z.of_nat (length docs)))];
            CallDeleteMany k f] ++ tail)%list
      ∧ (tail = [] ∨ ∃ count, tail = [CallLog [Lit "Deleted "; Fmt count; Lit " records"]]).
Proof.
  destruct (delete_records_frame w s) as [He _]. rewrite He.
  destruct (acquire_frame w s) as (_ & _ & Hnd & _).
  destruct (delete_records_body_cases w s) as [(e & _ & Hb)|(coll & Ha & Hb)].
  { left. by rewrite Hb. }
  destruct (acquire_inv w s coll Ha) as (c & k & -> & Ht & Hc & Hk).
  pose proof (acquire_lookup w s c (Some k) Hc Hk) as Hal. cbn [obj_truthy] in Hal.
  rewrite Ht in Hal. rewrite Hal in Hb. cbn [res st evs] in Hb.
  destruct (_search_documents w) as [docs|e] eqn:Hs.
  2:{ left. rewrite Hb, (perform_search_raises w (Some k) _ e Hs). cbn [evs].
      rewrite delete_calls_app. unfold construction.
      by destruct (obj_truthy (client (self s))). }
  destruct (docs_to_data_spec w docs (with_client c s)) as (rs & Hrs & _ & _ & Hlen & _).
  destruct (res (__build_filter rs (set_status rs (st (__docs_to_data w docs (with_client c s))))))
    as [f|e] eqn:Hf.
  2:{ left. rewrite Hb, (perform_filter_raises w (Some k) _ docs rs e Hs Hrs Hf). cbn [evs].
      rewrite delete_calls_app. unfold construction.
      by destruct (obj_truthy (client (self s))). }
  right. exists c, k, f, docs, (conclude (delete_many w k f) rs).2.
  rewrite Hb, (perform_found w k _ docs rs f Hs Hrs (build_filter_run _ _ _ Hf)). cbn [evs].
  rewrite Hlen. split; [exact Hc|]. do 2 (split; [done|]). split; [|split].
  - rewrite !delete_calls_app.
    destruct (conclude_no_calls (delete_many w k f) rs) as [Hn _]. rewrite Hn.
    unfold construction. by destruct (obj_truthy (client (self s))).
  - by rewrite <- app_assoc.
  - unfold conclude. destruct (delete_many w k f) as [result|e]; [|by left].
    destruct (py_getitem result "status") as [stat|e]; [|by left].
    destruct (py_getitem stat "deletedCount") as [count|e]; [|by left].
    right. by exists count.
Qed.

(** Lines 57-63 always begin with the search. *)
Lemma perform_searches w coll s : CallSearch ∈ evs (perform w coll s).
Proof.
  unfold perform. destruct (bind_evs_prefix (search_documents w)
    (λ documents, let* filter := __build_filter documents in
                  let* result := collection_delete_many w coll filter in
                  let* stat := (fun s => mkOut (py_getitem result "status") s []) in
                  let* count := (fun s => mkOut (py_getitem stat "deletedCount") s []) in
                  do log [Lit "Deleted "; Fmt count; Lit " records"] then
                  ret (firstn 5 documents)) s) as [t ->].
  unfold search_documents.
  destruct (bind_evs_prefix (call CallSearch (_search_documents w))
    (λ docs, let* data := __docs_to_data w docs in
             do log [Lit "Converted documents to data: ";
                     Fmt (VInt (Z.of_nat (length data)))] then
             do (fun s => mkOut (Ok tt) (set_status data s) []) then
             ret data) s) as [t' ->].
  cbn. apply elem_of_cons. by left.
Qed.

(** X8. If an invocation of [delete_records] did not get as far as the
    search, it wrote to no mapping that existed: the documents' metadata, in
    particular, is as it was. *)
Theorem no_search_no_write w s l :
  CallSearch ∉ evs (delete_records w s) →
  is_Some (heap s !! l) →
  heap (st (delete_records w s)) !! l = heap s !! l.
Proof.
  intros Hno Hl.
  destruct (acquire_frame w s) as (_ & _ & _ & Hh & _).
  destruct (delete_records_body_cases w s) as [(e & _ & Hb)|(coll & _ & Hb)].
  - destruct (delete_records_of_body w s _ Hb) as (_ & _ & Hres). cbn [res st] in Hres.
    destruct (is_Exception e).
    + destruct Hres as (r & _ & _ & Hframe). rewrite Hframe; by rewrite Hh.
    + destruct Hres as [_ ->]. by rewrite Hh.
  - destruct (delete_records_of_body w s _ Hb) as (He & _). cbn [evs] in He.
    exfalso. apply Hno. rewrite He. apply elem_of_app. right. apply perform_searches.
Qed.

Lemma no_search_no_write_witness :
  heap (st (delete_records
              (mkWorld (λ _ _, Ok sample_client) (λ _ _, Ok None) (Ok sample_docs)
                 (λ _ _, Ok sample_response) true)
              (sample_state VNone None))) !! 0
  = sample_heap !! 0.
Proof.
  refine (no_search_no_write
            (mkWorld (λ _ _, Ok sample_client) (λ _ _, Ok None) (Ok sample_docs)
               (λ _ _, Ok sample_response) true)
            (sample_state VNone None) 0 _ _).
  - intros H. apply list_elem_of_In in H. vm_compute in H. intuition discriminate.
  - vm_compute. eauto.
Defined.

(** ** Failures after the search *)

Lemma with_client_client w s c :
  obtains_client w s c → client (self (with_client c s)) = Some c.
Proof.
  intros [Ht [Hc|[Hf _]]]; unfold with_client.
  - rewrite Hc. cbn. by rewrite Ht.
  - by rewrite Hf.
Qed.

(** Subscripting raises a [KeyError] or a [TypeError], both of class
    [Exception]. *)
Lemma py_getitem_raises v key e : py_getitem v key = Raise e → is_Exception e = true.
Proof.
  destruct v as [| | | | |d]; cbn; try (by intros [= <-]).
  destruct (d !! key); [done|]. by intros [= <-].
Qed.

(** The invocation when the client, the collection, the search results and
    the filter are there, and the bulk delete or the reading of its response
    raises an exception of class [Exception]. *)
Lemma found_failure w s c k docs rs f e :
  obtains_client w s c →
  collection w c (collection_name (self s)) = Ok (Some k) →
  truthy k = true →
  _search_documents w = Ok docs →
  res (__docs_to_data w docs (with_client c s)) = Ok rs →
  res (__build_filter rs (searched w docs c s)) = Ok f →
  (conclude (delete_many w k f) rs).1 = Raise e →
  is_Exception e = true →
  delete_calls (evs (delete_records w s)) = [(k, f)]
  ∧ status (self (st (delete_records w s))) = Some rs
  ∧ client (self (st (delete_records w s))) = Some c
  ∧ ∃ r, res (delete_records w s) = Ok [r]
         ∧ failure_record (heap (st (delete_records w s))) r
             ("Failed to delete records: " ++ exn_str e).
Proof.
  intros Hc Hk Ht Hs Hrs Hf He Hexc.
  pose proof (delete_records_body_found w s c k docs rs f Hc Hk Ht Hs Hrs Hf) as Hb.
  destruct (delete_records_of_body w s _ Hb) as (Hev & Hself & Hres).
  cbn [res st evs] in Hev, Hself, Hres. rewrite He, Hexc in Hres.
  destruct Hres as (r & Hr & Hfr & _).
  destruct (docs_to_data_spec w docs (with_client c s)) as (rs' & Hrs' & _ & Hself' & _).
  rewrite Hev, Hself. repeat split.
  - rewrite !delete_calls_app.
    destruct (conclude_no_calls (delete_many w k f) rs) as [Hn _]. rewrite Hn.
    unfold construction. by destruct (obj_truthy (client (self s))).
  - unfold searched. by rewrite Hrs.
  - unfold searched. rewrite Hrs. cbn. rewrite Hself'. by eapply with_client_client.
  - eauto.
Qed.

(** X9. If the store answers the bulk delete with a response from which
    [result['status']['deletedCount']] cannot be read, the delete has been
    issued all the same, yet [delete_records] returns a failure record:
    [success] false, [deleted_count] 0 and the text of the lookup's
    exception in the message. *)
Theorem unreadable_response_reported w s c k docs rs f result e :
  obtains_client w s c →
  collection w c (collection_name (self s)) = Ok (Some k) →
  truthy k = true →
  _search_documents w = Ok docs →
  res (__docs_to_data w docs (with_client c s)) = Ok rs →
  res (__build_filter rs (searched w docs c s)) = Ok f →
  delete_many w k f = Ok result →
  (py_getitem result "status" = Raise e
   ∨ ∃ stat, py_getitem result "status" = Ok stat
             ∧ py_getitem stat "deletedCount" = Raise e) →
  delete_calls (evs (delete_records w s)) = [(k, f)]
  ∧ ∃ r, res (delete_records w s) = Ok [r]
         ∧ read (heap (st (delete_records w s))) (data r) !! "success" = Some (VBool false)
         ∧ read (heap (st (delete_records w s))) (data r) !! "deleted_count"
           = Some (VInt 0)
         ∧ read (heap (st (delete_records w s))) (data r) !! "message"
           = Some (VStr ("Failed to delete records: " ++ exn_str e)).
Proof.
  intros Hc Hk Ht Hs Hrs Hf Hd Hbad.
  assert (He : (conclude (delete_many w k f) rs).1 = Raise e).
  { unfold conclude. rewrite Hd. destruct Hbad as [->|(stat & -> & ->)]; done. }
  assert (Hexc : is_Exception e = true).
  { destruct Hbad as [H|(stat & _ & H)]; by apply py_getitem_raises in H. }
  destruct (found_failure w s c k docs rs f e Hc Hk Ht Hs Hrs Hf He Hexc)
    as (Hdel & _ & _ & r & Hr & _ & Hfd).
  destruct (failure_dict_lookup ("Failed to delete records: " ++ exn_str e)) as (H1 & H2 & H3).
  split; [done|]. exists r. by rewrite Hfd.
Qed.

(** X9 on a response without a ['status'] entry. *)
Lemma unreadable_response_reported_witness :
  ∃ r, res (delete_records
              (mkWorld (λ _ _, Ok sample_client) (λ _ _, Ok (Some sample_collection))
                 (Ok sample_docs) (λ _ _, Ok (VDict ∅)) false)
              (sample_state VNone None)) = Ok [r]
       ∧ read (heap (st (delete_records
              (mkWorld (λ _ _, Ok sample_client) (λ _ _, Ok (Some sample_collection))
                 (Ok sample_docs) (λ _ _, Ok (VDict ∅)) false)
              (sample_state VNone None)))) (data r) !! "message"
         = Some (VStr "Failed to delete records: 'status'").
Proof.
  destruct (unreadable_response_reported
              (mkWorld (λ _ _, Ok sample_client) (λ _ _, Ok (Some sample_collection))
                 (Ok sample_docs) (λ _ _, Ok (VDict ∅)) false)
              (sample_state VNone None) sample_client sample_collection sample_docs
              [mkData 0 "text"; mkData 1 "text"]
              (VDict {[ "_id" := VDict {[ "$in" := VList [VStr "a"; VNone] ]} ]})
              (VDict ∅) (KeyError "status"))
    as (_ & r & Hr & _ & _ & Hm).
  - split; [reflexivity|]. right. split; reflexivity.
  - reflexivity.
  - reflexivity.
  - reflexivity.
  - vm_compute. reflexivity.
  - vm_compute. reflexivity.
  - reflexivity.
  - left. vm_compute. reflexivity.
  - exists r. split; [exact Hr | exact Hm].
Defined.

(** X10. If the bulk delete itself raises an exception of class
    [Exception], [delete_records] returns a failure record carrying the
    exception's text, but what went before stays: the client is kept in its
    field and [self.status] holds the converted search results. *)
Theorem failed_delete_keeps_search_results w s c k docs rs f e :
  obtains_client w s c →
  collection w c (collection_name (self s)) = Ok (Some k) →
  truthy k = true →
  _search_documents w = Ok docs →
  res (__docs_to_data w docs (with_client c s)) = Ok rs →
  res (__build_filter rs (searched w docs c s)) = Ok f →
  delete_many w k f = Raise e →
  is_Exception e = true →
  status (self (st (delete_records w s))) = Some rs
  ∧ client (self (st (delete_records w s))) = Some c
  ∧ ∃ r, res (delete_records w s) = Ok [r]
         ∧ read (heap (st (delete_records w s))) (data r) !! "success" = Some (VBool false)
         ∧ read (heap (st (delete_records w s))) (data r) !! "message"
           = Some (VStr ("Failed to delete records: " ++ exn_str e)).
Proof.
  intros Hc Hk Ht Hs Hrs Hf Hd Hexc.
  assert (He : (conclude (delete_many w k f) rs).1 = Raise e)
    by (unfold conclude; by rewrite Hd).
  destruct (found_failure w s c k docs rs f e Hc Hk Ht Hs Hrs Hf He Hexc)
    as (_ & Hst & Hcl & r & Hr & _ & Hfd).
  destruct (failure_dict_lookup ("Failed to delete records: " ++ exn_str e)) as (H1 & H2 & H3).
  do 2 (split; [done|]). exists r. by rewrite Hfd.
Qed.

Lemma failed_delete_keeps_search_results_witness :
  status (self (st (delete_records
            (mkWorld (λ _ _, Ok sample_client) (λ _ _, Ok (Some sample_collection))
               (Ok sample_docs) (λ _ _, Raise (SdkError "TimeoutError" "timed out")) false)
            (sample_state VNone None))))
  = Some [mkData 0 "text"; mkData 1 "text"].
Proof.
  refine (proj1 (failed_delete_keeps_search_results
            (mkWorld (λ _ _, Ok sample_client) (λ _ _, Ok (Some sample_collection))
               (Ok sample_docs) (λ _ _, Raise (SdkError "TimeoutError" "timed out")) false)
            (sample_state VNone None) sample_client sample_collection sample_docs
            [mkData 0 "text"; mkData 1 "text"]
            (VDict {[ "_id" := VDict {[ "$in" := VList [VStr "a"; VNone] ]} ]})
            (SdkError "TimeoutError" "timed out") _ _ _ _ _ _ _ _)).
  - split; [reflexivity|]. right. split; reflexivity.
  - reflexivity.
  - reflexivity.
  - reflexivity.
  - vm_compute. reflexivity.
  - vm_compute. reflexivity.
  - reflexivity.
  - reflexivity.
Defined.

(** ** A client that is not usable *)

(** Lines 47-51 when the constructor hands back a falsy object. *)
Lemma acquire_falsy_client w s c :
  obj_truthy (client (self s)) = false →
  AstraDB w (token (self s)) (api_endpoint (self s)) = Ok c →
  truthy c = false →
  acquire w s =
    mkOut (Raise (Exception_ "Failed to initialize AstraDB client"))
      (set_client (Some c) s)
      [CallAstraDB (token (self s)) (api_endpoint (self s))].
Proof.
  destruct s as [[tok ep cn f cl stt] h]. cbn. intros Hf Hnew Ht.
  run_acquire. by crunch.
Qed.

(** X11. If the client field is falsy and the constructor returns an object
    that is itself falsy, [delete_records] stops at the guard of lines
    50-51: it returns a failure record with the message of line 51, makes no
    call but the construction, and keeps the falsy object in the field, so
    that the next invocation constructs a client again. *)
Theorem falsy_client_reported w s c :
  obj_truthy (client (self s)) = false →
  AstraDB w (token (self s)) (api_endpoint (self s)) = Ok c →
  truthy c = false →
  evs (delete_records w s) = [CallAstraDB (token (self s)) (api_endpoint (self s))]
  ∧ client (self (st (delete_records w s))) = Some c
  ∧ (∃ r, res (delete_records w s) = Ok [r]
          ∧ read (heap (st (delete_records w s))) (data r) !! "success" = Some (VBool false)
          ∧ read (heap (st (delete_records w s))) (data r) !! "message"
            = Some (VStr "Failed to delete records: Failed to initialize AstraDB client"))
  ∧ (∀ w', client_calls (evs (delete_records w' (st (delete_records w s))))
           = [(token (self s), api_endpoint (self s))]).
Proof.
  intros Hf Hnew Ht.
  pose proof (acquire_falsy_client w s c Hf Hnew Ht) as Ha.
  assert (Hb : delete_records_body w s =
               mkOut (Raise (Exception_ "Failed to initialize AstraDB client"))
                 (set_client (Some c) s)
                 [CallAstraDB (token (self s)) (api_endpoint (self s))]).
  { rewrite delete_records_body_split.
    rewrite (bind_Raise _ _ _ (Exception_ "Failed to initialize AstraDB client"))
      by (by rewrite Ha). by rewrite Ha. }
  destruct (delete_records_of_body w s _ Hb) as (Hev & Hself & Hres).
  cbn [res st evs is_Exception] in Hev, Hself, Hres.
  destruct Hres as (r & Hr & [_ Hfd] & _).
  destruct (failure_dict_lookup ("Failed to delete records: "
              ++ exn_str (Exception_ "Failed to initialize AstraDB client"))) as (_ & H2 & H3).
  split; [done|]. split; [by rewrite Hself|]. split.
  - exists r. by rewrite Hfd.
  - intros w'. destruct (delete_records_client w' (st (delete_records w s))) as [_ Hcc].
    destruct (acquire_frame w' (st (delete_records w s))) as (_ & Hcc' & _).
    rewrite Hcc, Hcc', Hself. cbn. by rewrite Ht.
Qed.

Lemma falsy_client_reported_witness :
  evs (delete_records
         (mkWorld (λ _ _, Ok (mkObject 7 false)) (λ _ _, Ok (Some sample_collection))
            (Ok sample_docs) (λ _ _, Ok sample_response) true)
         (sample_state VNone None))
  = [CallAstraDB "token" "endpoint"].
Proof.
  exact (proj1 (falsy_client_reported
                  (mkWorld (λ _ _, Ok (mkObject 7 false)) (λ _ _, Ok (Some sample_collection))
                     (Ok sample_docs) (λ _ _, Ok sample_response) true)
                  (sample_state VNone None) (mkObject 7 false) eq_refl eq_refl eq_refl)).
Defined.

(** ** The shape of the result *)

Lemma conclude_returned response rs v :
  (conclude response rs).1 = Ok v → v = firstn 5 rs.
Proof.
  unfold conclude. destruct response as [result|e]; [|done].
  destruct (py_getitem result "status") as [stat|e]; [|done].
  destruct (py_getitem stat "deletedCount") as [count|e]; [|done].
  by intros [= <-].
Qed.

(** X12. Every invocation of [delete_records] either returns a list of at
    most five records that tells success from failure (all its records have
    text key ["text"], the converted search results, or it is a single
    record with text key ["message"], the failure record), or lets through
    an exception of its [try] block that is not of class [Exception]. *)
Theorem delete_records_result_shape w s :
  (∃ rs,
     res (delete_records w s) = Ok rs
     ∧ (length rs ≤ 5)%nat
     ∧ (Forall (λ r, text_key r = "text") rs
        ∨ ∃ r, rs = [r] ∧ text_key r = "message"))
  ∨ (∃ e,
       is_Exception e = false
       ∧ res (delete_records_body w s) = Raise e
       ∧ res (delete_records w s) = Raise e).
Proof.
  destruct (res (delete_records_body w s)) as [v|e] eqn:Hres.
  2:{ destruct (is_Exception e) eqn:Hexc.
      - left. destruct (delete_records_caught w s e Hres Hexc) as (r & Hr & _ & _ & Htk & _).
        exists [r]. split; [done|]. split; [cbn; lia|]. right. eauto.
      - right. exists e. by rewrite (delete_records_uncaught w s e Hres Hexc). }
  left. exists v. rewrite (delete_records_returned w s v Hres), Hres. split; [done|].
  destruct (delete_records_body_cases w s) as [(e & _ & Hb)|(coll & Ha & Hb)];
    rewrite Hb in Hres; cbn [res] in Hres; [done|].
  destruct (acquire_inv w s coll Ha) as (c & k & -> & Ht & Hc & Hk).
  set (s1 := st (acquire w s)) in *.
  destruct (_search_documents w) as [docs|e] eqn:Hs.
  2:{ by rewrite (perform_search_raises w (Some k) s1 e Hs) in Hres. }
  destruct (docs_to_data_spec w docs s1) as (rs & Hrs & _).
  destruct (res (__build_filter rs (set_status rs (st (__docs_to_data w docs s1)))))
    as [f|e] eqn:Hf.
  2:{ by rewrite (perform_filter_raises w (Some k) s1 docs rs e Hs Hrs Hf) in Hres. }
  rewrite (perform_found w k s1 docs rs f Hs Hrs (build_filter_run _ _ _ Hf)) in Hres.
  cbn [res] in Hres. apply conclude_returned in Hres as ->.
  split.
  - rewrite length_take. lia.
  - left. apply Forall_take. by eapply docs_to_data_text_key.
Qed.

(** ** What is deleted and what is reported *)

(** X13. With no usable filter configured, the bulk delete names one
    identifier per matched document, all N of them, while the list returned
    after a successful delete has only min(5, N) records: beyond five
    matches, more is deleted than is reported. *)
Theorem deletes_all_reports_five w s c k docs rs :
  py_truthy (advanced_search_filter (self s)) = false →
  obtains_client w s c →
  collection w c (collection_name (self s)) = Ok (Some k) →
  truthy k = true →
  _search_documents w = Ok docs →
  res (__docs_to_data w docs (with_client c s)) = Ok rs →
  (∀ ids, delete_succeeds w k (id_filter ids)) →
  ∃ ids,
    length ids = length docs
    ∧ delete_calls (evs (delete_records w s)) = [(k, id_filter ids)]
    ∧ res (delete_records w s) = Ok (firstn 5 rs)
    ∧ length (firstn 5 rs) = Nat.min 5 (length docs).
Proof.
  intros Hfalse Hc Hk Ht Hs Hrs Hok.
  destruct (docs_to_data_spec w docs (with_client c s)) as (rs' & Hrs' & _ & _ & Hlen & _).
  rewrite Hrs in Hrs'. injection Hrs' as <-.
  assert (Hheap : heap (searched w docs c s)
                  = heap (st (__docs_to_data w docs (with_client c s))))
    by (unfold searched; by rewrite Hrs).
  destruct (has_id_collect (heap (searched w docs c s)) rs) as [ids Hids].
  { rewrite Hheap. by apply docs_to_data_has_id. }
  assert (Hb : res (__build_filter rs (searched w docs c s)) = Ok (id_filter ids)).
  { rewrite (build_filter_ids rs (searched w docs c s) ids); [done| |done].
    by rewrite searched_filter. }
  destruct (Hok ids) as (result & stat & count & Hd & Hst & Hcnt).
  pose proof (delete_records_body_found w s c k docs rs _ Hc Hk Ht Hs Hrs Hb) as Hbody.
  unfold conclude in Hbody. rewrite Hd, Hst, Hcnt in Hbody. cbn [fst snd] in Hbody.
  destruct (delete_records_of_body w s _ Hbody) as (Hev & _ & Hres & _).
  cbn [res st evs] in Hev, Hres.
  exists ids. rewrite Hev, Hres. repeat split.
  - apply Forall2_length in Hids. congruence.
  - rewrite !delete_calls_app. unfold construction.
    by destruct (obj_truthy (client (self s))).
  - by rewrite length_take, Hlen, Nat.min_comm.
Qed.

(** X13 on seven matches: seven identifiers in the filter, five records
    back. *)
Lemma deletes_all_reports_five_witness :
  ∃ ids,
    length ids = 7
    ∧ delete_calls (evs (delete_records (sample_world false (Ok seven_docs)) seven_state))
      = [(sample_collection, id_filter ids)]
    ∧ length (firstn 5 [mkData 0 "text"; mkData 1 "text"; mkData 2 "text"; mkData 3 "text";
                         mkData 4 "text"; mkData 5 "text"; mkData 6 "text"]) = 5.
Proof.
  destruct (deletes_all_reports_five (sample_world false (Ok seven_docs)) seven_state
              sample_client sample_collection seven_docs
              [mkData 0 "text"; mkData 1 "text"; mkData 2 "text"; mkData 3 "text";
               mkData 4 "text"; mkData 5 "text"; mkData 6 "text"])
    as (ids & Hl & Hd & _ & Hn).
  - reflexivity.
  - split; [reflexivity|]. right. split; reflexivity.
  - reflexivity.
  - reflexivity.
  - reflexivity.
  - vm_compute. reflexivity.
  - intros ids. exists sample_response, (VDict {[ "deletedCount" := VInt 2 ]}), (VInt 2).
    repeat split; vm_compute; reflexivity.
  - exists ids. split; [exact Hl|]. split; [exact Hd | exact Hn].
Defined.

(** X14. A search that matches nothing does not stop the operation: with no
    usable filter configured the bulk delete is still issued, with the empty
    identifier list [{"_id": {"$in": []}}]; if it succeeds the result is the
    empty list and no mapping of the store has changed. *)
Theorem empty_search_still_deletes w s c k :
  py_truthy (advanced_search_filter (self s)) = false →
  obtains_client w s c →
  collection w c (collection_name (self s)) = Ok (Some k) →
  truthy k = true →
  _search_documents w = Ok [] →
  delete_calls (evs (delete_records w s))
  = [(k, VDict {[ "_id" := VDict {[ "$in" := VList [] ]} ]})]
  ∧ (delete_succeeds w k (VDict {[ "_id" := VDict {[ "$in" := VList [] ]} ]}) →
     res (delete_records w s) = Ok []
     ∧ status (self (st (delete_records w s))) = Some []
     ∧ heap (st (delete_records w s)) = heap s).
Proof.
  intros Hfalse Hc Hk Ht Hs.
  assert (Hrs : res (__docs_to_data w [] (with_client c s)) = Ok []) by done.
  assert (Hsd : searched w [] c s = set_status [] (with_client c s)) by done.
  assert (Hb : res (__build_filter [] (searched w [] c s)) = Ok (id_filter [])).
  { rewrite (build_filter_ids [] (searched w [] c s) []); [done| |constructor].
    by rewrite searched_filter. }
  pose proof (delete_records_body_found w s c k [] [] _ Hc Hk Ht Hs Hrs Hb) as Hbody.
  split.
  - destruct (delete_records_of_body w s _ Hbody) as (Hev & _). cbn [evs] in Hev.
    rewrite Hev, !delete_calls_app.
    destruct (conclude_no_calls (delete_many w k (id_filter [])) []) as [Hn _].
    rewrite Hn. unfold construction. by destruct (obj_truthy (client (self s))).
  - intros (result & stat & count & Hd & Hst & Hcnt).
    unfold conclude in Hbody. fold (id_filter []) in Hd.
    rewrite Hd, Hst, Hcnt in Hbody. cbn [fst snd] in Hbody.
    destruct (delete_records_of_body w s _ Hbody) as (_ & _ & Hres & Hstate).
    cbn [res st] in Hres, Hstate. rewrite Hres, Hstate, Hsd.
    repeat split. cbn. apply with_client_frame.
Qed.

Lemma empty_search_still_deletes_witness :
  delete_calls (evs (delete_records (sample_world true (Ok [])) (sample_state VNone None)))
  = [(sample_collection, VDict {[ "_id" := VDict {[ "$in" := VList [] ]} ]})].
Proof.
  refine (proj1 (empty_search_still_deletes (sample_world true (Ok []))
                   (sample_state VNone None) sample_client sample_collection _ _ _ _ _)).
  - reflexivity.
  - split; [reflexivity|]. right. split; reflexivity.
  - reflexivity.
  - reflexivity.
  - reflexivity.
Defined.

(** ** Initialising the client by hand *)

(** Lines 47-55 on a component that holds a truthy client: the only call is
    the lookup on that client. *)
Lemma acquire_with_client w s c :
  client (self s) = Some c → truthy c = true →
  evs (acquire w s) = [CallCollection c (collection_name (self s))].
Proof.
  destruct s as [[tok ep cn f cl stt] h]. cbn. intros -> Ht.
  run_acquire. crunch.
  destruct (collection w c cn) as [[k|]|e] eqn:Hk; crunch;
    [destruct (truthy k) eqn:Hkt|..]; by crunch.
Qed.

(** X15. [initialize_client] assigns the field without looking at it: after
    it has returned with a truthy handle, whatever client the component held
    before, a following [delete_records] constructs nothing, looks the
    collection up on that handle, under the configured name, before any
    other call, and leaves the handle in the field. *)
Theorem initialized_client_is_used w w' s t a c :
  AstraDB w t a = Ok c →
  truthy c = true →
  client (self (st (initialize_client w t a s))) = Some c
  ∧ client_calls (evs (delete_records w' (st (initialize_client w t a s)))) = []
  ∧ client (self (st (delete_records w' (st (initialize_client w t a s))))) = Some c
  ∧ ∃ rest, evs (delete_records w' (st (initialize_client w t a s)))
            = CallCollection c (collection_name (self s)) :: rest.
Proof.
  intros Hnew Ht.
  assert (Hst : st (initialize_client w t a s) = set_client (Some c) s).
  { unfold initialize_client, bind, call. cbn. by rewrite Hnew. }
  rewrite Hst. set (s1 := set_client (Some c) s).
  assert (Hc1 : client (self s1) = Some c) by done.
  destruct (delete_records_client w' s1) as [Hcl Hcc].
  destruct (acquire_frame w' s1) as (Hcl' & Hcc' & _).
  rewrite Hc1 in Hcl', Hcc'. cbn [obj_truthy] in Hcl', Hcc'. rewrite Ht in Hcl', Hcc'.
  split; [done|]. split; [by rewrite Hcc, Hcc'|]. split; [by rewrite Hcl, Hcl'|].
  destruct (delete_records_frame w' s1) as [He _]. rewrite He.
  pose proof (acquire_with_client w' s1 c Hc1 Ht) as Ha.
  destruct (delete_records_body_cases w' s1) as [(e & _ & Hb)|(coll & _ & Hb)];
    rewrite Hb; cbn [evs]; rewrite Ha; eauto.
Qed.

(** X15 on a component that already held another client. *)
Lemma initialized_client_is_used_witness :
  client_calls (evs (delete_records (sample_world true (Ok sample_docs))
     (st (initialize_client (sample_world true (Ok sample_docs)) "token" "endpoint"
            (sample_state VNone (Some (mkObject 9 true))))))) = [].
Proof.
  destruct (initialized_client_is_used (sample_world true (Ok sample_docs))
              (sample_world true (Ok sample_docs))
              (sample_state VNone (Some (mkObject 9 true))) "token" "endpoint"
              sample_client eq_refl eq_refl) as (_ & H & _).
  exact H.
Defined.

(** ** What the search never does *)

(** X16. Whatever the inherited search answers, [search_documents] issues
    no bulk delete, constructs no client and leaves the client field as it
    is: its calls are the search and, when it answers, one log line. *)
Theorem search_documents_only_searches w s :
  delete_calls (evs (search_documents w s)) = []
  ∧ client_calls (evs (search_documents w s)) = []
  ∧ client (self (st (search_documents w s))) = client (self s)
  ∧ (evs (search_documents w s) = [CallSearch]
     ∨ ∃ msg, evs (search_documents w s) = [CallSearch; CallLog msg]).
Proof.
  destruct (_search_documents w) as [docs|e] eqn:Hs.
  - destruct (docs_to_data_spec w docs s) as (rs & Hrs & _ & Hself & _).
    rewrite (search_documents_found w s docs rs Hs Hrs). cbn. rewrite Hself.
    repeat split. right. eauto.
  - rewrite (search_documents_raises w s e Hs). cbn. repeat split. by left.
Qed.
